(** * CategoricalColumn: a shallow embedding of
      dataprofiler/profilers/categorical_column_profile.py

    Modelling conventions.

    - Python [int] is [Z].  Python [float] is idealised as an exact
      rational ([Qc], the canonical rationals, whose equality is Leibniz
      equality); [np.inf] is a separate constructor.  The rounding of
      binary64 arithmetic is outside the model.
    - A [dict] or [defaultdict(int)] from category to count is a heap
      object holding a [gmap K Z]; Python compares dicts without regard to
      insertion order, and so does [gmap] equality.  Subscripting a
      [defaultdict] on a missing key inserts the default: [dict_getitem]
      writes that out.
    - Objects live in a store indexed by locations, methods are
      computations in a state-and-exception monad [M], so that aliasing
      ([a + a], [a.diff(a)]) and in-place mutation can be expressed.
    - Warnings issued through [warnings.warn] are appended to a trace.  The
      trace also records each entry into [_perform_chi_squared_test], which
      lets "the test is not invoked" be read off the trace. *)

From Stdlib Require Import ZArith QArith Qcanon String Lia.
From stdpp Require Import base option list gmap strings numbers sorting.

Local Open Scope Z_scope.

(** ** Outcomes, exceptions and the trace *)

Inductive exn :=
  | TypeError (msg : string)
  | ValueError (msg : string)
  | ZeroDivisionError
  | KeyError
  | IndexError
  | AttributeError.

Inductive outcome (A : Type) :=
  | Ret (a : A)
  | Raise (e : exn).
Arguments Ret {A} a.
Arguments Raise {A} e.

Abbreviation loc := positive.

Inductive event :=
  | Warn (category msg : string)
  | Enter_chi_squared_test (categories1 categories2 : loc).

(** A float as this file idealises it: a rational or [np.inf]. *)
Inductive pyfloat :=
  | Fin (q : Qc)
  | Inf.

(** The [results] dict of [_perform_chi_squared_test], keys
    "chi2-statistic", "df" and "p-value"; [None] is Python's [None]. *)
Record chi2_results := Chi2Results {
  res_chi2_statistic : option pyfloat;
  res_df : option Z;
  res_p_value : option Qc
}.

(** [results[key] = v] for each of the three keys *)
Definition set_chi2_statistic (v : pyfloat) (r : chi2_results) :=
  Chi2Results (Some v) (res_df r) (res_p_value r).
Definition set_df (v : Z) (r : chi2_results) :=
  Chi2Results (res_chi2_statistic r) (Some v) (res_p_value r).
Definition set_p_value (v : Qc) (r : chi2_results) :=
  Chi2Results (res_chi2_statistic r) (res_df r) (Some v).

(** ** The monad: state passing with exceptions

    An exception leaves the state as it was when it was raised, as in
    Python: what was mutated before the [raise] stays mutated. *)

Definition M (St A : Type) : Type := St → outcome A * St.

Definition ret {St A} (a : A) : M St A := λ s, (Ret a, s).

Definition bind {St A B} (m : M St A) (f : A → M St B) : M St B := λ s,
  match m s with
  | (Ret a, s') => f a s'
  | (Raise e, s') => (Raise e, s')
  end.

Definition raise {St A} (e : exn) : M St A := λ s, (Raise e, s).

Notation "x <- m ;; k" := (bind m (λ x, k))
  (at level 100, m at next level, right associativity,
   format "'[v' x  <-  m  ;;  '/' k ']'").
Notation "m ;;; k" := (bind m (λ _, k))
  (at level 100, right associativity).

(** [for x in xs: acc = body acc x], the accumulator threaded by hand. *)
Fixpoint for_each {St A B} (xs : list A) (acc : B) (body : B → A → M St B)
    : M St B :=
  match xs with
  | [] => ret acc
  | x :: xs' => acc' <- body acc x ;; for_each xs' acc' body
  end.

(** [[f x for x in xs]] *)
Fixpoint map_each {St A B} (xs : list A) (f : A → M St B) : M St (list B) :=
  match xs with
  | [] => ret []
  | x :: xs' => y <- f x ;; ys <- map_each xs' f ;; ret (y :: ys)
  end.

(** [xs[i]] for [0 <= i] *)
Definition list_getitem {St A} (xs : list A) (i : nat) : M St A :=
  match xs !! i with
  | Some x => ret x
  | None => raise IndexError
  end.

(** [sum(xs)] on a list of ints *)
Definition sum_list (xs : list Z) : Z := foldl Z.add 0 xs.

(** The [options] argument of the constructor. *)
Inductive options_arg :=
  | CategoricalOptions (top_k_categories : option Z)
  | OtherOptions.

Section Model.
Context {K : Type} `{Countable K}.

(** [scipy.stats] is imported inside [_perform_chi_squared_test] and the
    import may fail.  [None] stands for an [ImportError]; otherwise the
    function is [λ df x, scipy.stats.chi2(df).cdf(x)]. *)
Variable scipy_stats_chi2_cdf : option (Z → Qc → Qc).

(** The comparison helpers of [utils] are not part of this file's source:
    they are parameters, pure functions into a type [V] of difference
    values.  An ordered dict is passed as its list of items. *)
Context {V : Type}.
Variable find_diff_of_strings_and_bools : bool → bool → V.
Variable find_diff_of_numbers : option Qc → option Qc → V.
Variable find_diff_of_lists_and_sets : list K → list K → V.
Variable find_diff_of_dicts : list (K * Z) → list (K * Z) → V.

(** A value of the dict [diff] returns: a difference, the nested
    "statistics" dict, or the results of the chi-squared test. *)
Inductive rvalue :=
  | RVal (v : V)
  | RStatistics (statistics : gmap string V)
  | RChi2 (results : chi2_results).

(** What [super().diff(other_profile, options)] returns.  The base class
    is not part of this file's source; its contribution is a parameter. *)
Variable base_differences : gmap string rvalue.

(** ** The store *)

(** A dict object.  [d_default] tells a [defaultdict(int)] from a plain
    [dict]. *)
Record dictobj := DictObj {
  d_default : bool;
  d_items : gmap K Z
}.

(** The attributes of a [CategoricalColumn] the code reads and writes.
    [name], [sample_size] and [times] belong to [BaseColumnProfiler]. *)
Record profile := Profile {
  name : option string;
  sample_size : Z;
  times : gmap string Qc;
  _categories : loc;
  _top_k_categories : option Z
}.

Inductive obj :=
  | ODict (d : dictobj)
  | OProfile (p : profile)
  | OOther (class_name : string).

Record state := State {
  heap : gmap loc obj;
  trace : list event
}.

(** ** Primitive operations on the store *)

Definition get_heap : M state (gmap loc obj) := λ s, (Ret (heap s), s).

Definition put_heap (h : gmap loc obj) : M state unit := λ s,
  (Ret tt, State h (trace s)).

Definition tell (e : event) : M state unit := λ s,
  (Ret tt, State (heap s) (trace s ++ [e])).

(** [warnings.warn(msg, RuntimeWarning)] *)
Definition warn (msg : string) : M state unit :=
  tell (Warn "RuntimeWarning" msg).

(** Allocation of a new object at an unused location. *)
Definition alloc (o : obj) : M state loc :=
  h <- get_heap ;;
  let l := fresh (dom h) in
  put_heap (<[l := o]> h) ;;;
  ret l.

(** Attribute access on a [CategoricalColumn]; on any other object the
    attributes do not exist. *)
Definition get_profile (l : loc) : M state profile :=
  h <- get_heap ;;
  match h !! l with
  | Some (OProfile p) => ret p
  | _ => raise AttributeError
  end.

Definition set_profile (l : loc) (p : profile) : M state unit :=
  h <- get_heap ;;
  match h !! l with
  | Some (OProfile _) => put_heap (<[l := OProfile p]> h)
  | _ => raise AttributeError
  end.

Definition get_dict (l : loc) : M state dictobj :=
  h <- get_heap ;;
  match h !! l with
  | Some (ODict d) => ret d
  | _ => raise AttributeError
  end.

(** [isinstance(x, CategoricalColumn)] *)
Definition isinstance_CategoricalColumn (l : loc) : M state bool :=
  h <- get_heap ;;
  match h !! l with
  | Some (OProfile _) => ret true
  | _ => ret false
  end.

(** [x.__class__.__name__] *)
Definition class_name_of (l : loc) : M state string :=
  h <- get_heap ;;
  match h !! l with
  | Some (OProfile _) => ret "CategoricalColumn"%string
  | Some (ODict d) =>
      ret (if d_default d then "defaultdict" else "dict")%string
  | Some (OOther c) => ret c
  | None => raise AttributeError
  end.

(** [len(d)] *)
Definition dict_len (l : loc) : M state Z :=
  d <- get_dict l ;;
  ret (Z.of_nat (size (d_items d))).

(** [d.keys()], also the order of [for k in d] *)
Definition dict_keys (l : loc) : M state (list K) :=
  d <- get_dict l ;;
  ret ((map_to_list (d_items d)).*1).

(** [d.items()] *)
Definition dict_items (l : loc) : M state (list (K * Z)) :=
  d <- get_dict l ;;
  ret (map_to_list (d_items d)).

(** [k in d] *)
Definition dict_contains (l : loc) (k : K) : M state bool :=
  d <- get_dict l ;;
  ret (bool_decide (is_Some (d_items d !! k))).

(** [d[k]].  A [defaultdict(int)] that misses [k] stores [int() = 0] under
    [k] and returns it; a plain [dict] raises [KeyError]. *)
Definition dict_getitem (l : loc) (k : K) : M state Z :=
  d <- get_dict l ;;
  match d_items d !! k with
  | Some c => ret c
  | None =>
      if d_default d then
        h <- get_heap ;;
        put_heap (<[l := ODict (DictObj true (<[k := 0]> (d_items d)))]> h) ;;;
        ret 0
      else raise KeyError
  end.

(** ** Arithmetic *)

(** [a / b] on two ints: true division. *)
Definition truediv (a b : Z) : M state Qc :=
  if decide (b = 0) then raise ZeroDivisionError
  else ret (Qc_of_Z a / Qc_of_Z b)%Qc.

(** [x / y] on two floats. *)
Definition truediv_float (x y : Qc) : M state Qc :=
  if decide (y = 0%Qc) then raise ZeroDivisionError
  else ret (x / y)%Qc.

(** ** The class constants *)

Definition _MAXIMUM_UNIQUE_VALUES_TO_CLASSIFY_AS_CATEGORICAL : Z := 10.

Definition _CATEGORICAL_THRESHOLD_DEFAULT : Qc := Q2Qc (2 # 10).

(** ** Properties of a profile *)

(** [categories]: [list(self._categories.keys())] *)
Definition categories (self : loc) : M state (list K) :=
  p <- get_profile self ;;
  dict_keys (_categories p).

(** [unique_ratio] *)
Definition unique_ratio (self : loc) : M state Qc :=
  let unique_ratio := 1%Qc in
  p <- get_profile self ;;
  if decide (sample_size p ≠ 0) then
    cats <- categories self ;;
    p' <- get_profile self ;;
    truediv (Z.of_nat (length cats)) (sample_size p')
  else ret unique_ratio.

(** [is_match] *)
Definition is_match (self : loc) : M state bool :=
  let is_match := false in
  p <- get_profile self ;;
  unique <- dict_len (_categories p) ;;
  if decide (unique ≤ _MAXIMUM_UNIQUE_VALUES_TO_CLASSIFY_AS_CATEGORICAL)
  then ret true
  else
    p' <- get_profile self ;;
    if decide (sample_size p' ≠ 0) then
      r <- unique_ratio self ;;
      if decide (r ≤ _CATEGORICAL_THRESHOLD_DEFAULT)%Qc then ret true
      else ret is_match
    else ret is_match.

(** [self.sample_size] *)
Definition get_sample_size (self : loc) : M state Z :=
  p <- get_profile self ;;
  ret (sample_size p).

(** [self._categories[i]] *)
Definition categories_getitem (self : loc) (i : K) : M state Z :=
  p <- get_profile self ;;
  dict_getitem (_categories p) i.

(** [gini_impurity] *)
Definition gini_impurity (self : loc) : M state (option Qc) :=
  n <- get_sample_size self ;;
  if decide (n = 0) then ret None
  else
    p <- get_profile self ;;
    keys <- dict_keys (_categories p) ;;
    gini_sum <- for_each keys 0%Qc (λ gini_sum i,
      c1 <- categories_getitem self i ;;
      n1 <- get_sample_size self ;;
      p1 <- truediv c1 n1 ;;
      c2 <- categories_getitem self i ;;
      n2 <- get_sample_size self ;;
      p2 <- truediv c2 n2 ;;
      ret (gini_sum + p1 * (1 - p2))%Qc) ;;
    ret (Some gini_sum).

(** [unalikeability] *)
Definition unalikeability (self : loc) : M state (option Qc) :=
  n <- get_sample_size self ;;
  if decide (n = 0) then ret None
  else
    n' <- get_sample_size self ;;
    if decide (n' = 1) then ret (Some 0%Qc)
    else
      p <- get_profile self ;;
      keys <- dict_keys (_categories p) ;;
      unalike_sum <- for_each keys 0 (λ unalike_sum category,
        n1 <- get_sample_size self ;;
        c1 <- categories_getitem self category ;;
        c2 <- categories_getitem self category ;;
        ret (unalike_sum + (n1 - c1) * c2)) ;;
      n2 <- get_sample_size self ;;
      n3 <- get_sample_size self ;;
      unalike <- truediv unalike_sum (n2 ^ 2 - n3) ;;
      ret (Some unalike).

(** ** The chi-squared test for homogeneity *)

(** The texts of the two warnings. *)
Definition insufficient_categories_msg : string :=
  "Insufficient number of categories. "
  ++ "Chi-squared test cannot be performed.".

Definition missing_scipy_msg : string :=
  "Could not import necessary statistical packages. "
  ++ "To successfully perform the chi-squared test, please "
  ++ "run 'pip install scipy.' Test results will be "
  ++ "incomplete.".

(** [categories[cat] if cat in categories else 0] *)
Definition count_or_zero (categories : loc) (cat : K) : M state Z :=
  b <- dict_contains categories cat ;;
  if b then dict_getitem categories cat else ret 0.

(** [_perform_chi_squared_test(categories1, categories2)], a static
    method on two dicts.

    [expected] is preallocated as two rows of [None] and filled cell by
    cell for [i < len(row_sums)], [j < len(col_sums)]; here the rows are
    built in the same order.  The empty lists the loop appends to
    [expected] are never read and are left out. *)
Definition _perform_chi_squared_test (categories1 categories2 : loc)
    : M state chi2_results :=
  tell (Enter_chi_squared_test categories1 categories2) ;;;
  let results := Chi2Results None None None in
  keys1 <- dict_keys categories1 ;;
  keys2 <- dict_keys categories2 ;;
  let combined_cats :=
    elements (list_to_set keys1 ∪ list_to_set keys2 : gset K) in
  let num_cats := Z.of_nat (length combined_cats) in
  if decide (Z.of_nat (length combined_cats) < 1) then
    warn insufficient_categories_msg ;;;
    ret results
  else
    let df := num_cats - 1 in
    let results := set_df df results in
    cat_counts1 <- map_each combined_cats (count_or_zero categories1) ;;
    cat_counts2 <- map_each combined_cats (count_or_zero categories2) ;;
    let observed := [cat_counts1; cat_counts2] in
    let row_sums := [sum_list cat_counts1; sum_list cat_counts2] in
    col_sums <- map_each (seq 0 (length combined_cats)) (λ i,
      a <- list_getitem cat_counts1 i ;;
      b <- list_getitem cat_counts2 i ;;
      ret (a + b)) ;;
    let total := sum_list row_sums in
    if decide (0 ∈ row_sums ∨ 0 ∈ col_sums) then
      let results := set_chi2_statistic Inf results in
      let results := set_p_value 0%Qc results in
      ret results
    else
      expected <- map_each (seq 0 (length row_sums)) (λ i,
        map_each (seq 0 (length col_sums)) (λ j,
          r <- list_getitem row_sums i ;;
          c <- list_getitem col_sums j ;;
          truediv (r * c) total)) ;;
      chi2_statistic <- for_each (seq 0 (length observed)) 0%Qc (λ acc i,
        row <- list_getitem observed i ;;
        for_each (seq 0 (length row)) acc (λ acc j,
          orow <- list_getitem observed i ;;
          o <- list_getitem orow j ;;
          erow <- list_getitem expected i ;;
          e <- list_getitem erow j ;;
          erow' <- list_getitem expected i ;;
          e' <- list_getitem erow' j ;;
          q <- truediv_float ((Qc_of_Z o - e) ^ 2)%Qc e' ;;
          ret (acc + q)%Qc)) ;;
      let results := set_chi2_statistic (Fin chi2_statistic) results in
      match scipy_stats_chi2_cdf with
      | None =>
          warn missing_scipy_msg ;;;
          ret results
      | Some cdf =>
          let p_value := (1 - cdf df chi2_statistic)%Qc in
          let results := set_p_value p_value results in
          ret results
      end.

(** ** Construction and merge *)

(** [CategoricalColumn(name, options)].  Modelled from the spec: the base
    constructor [BaseColumnProfiler.__init__] is not in the source; a
    profile is created empty, with sample size 0 and no recorded times.
    [__calculations] is the empty dict and stays empty, it is not
    represented. *)
Definition __init__ (name : option string) (options : option options_arg)
    : M state loc :=
  match options with
  | Some OtherOptions =>
      raise (ValueError ("CategoricalColumn parameter 'options' must be of"
                         ++ " type CategoricalOptions."))
  | _ =>
      cats <- alloc (ODict (DictObj true ∅)) ;;
      let top_k := match options with
                   | Some (CategoricalOptions k) => k
                   | _ => None
                   end in
      alloc (OProfile (Profile name 0 ∅ cats top_k))
  end.

(** The sum of two frequency maps.
    Modelled from the spec: [utils.add_nested_dictionaries] is not in the
    source.  The result holds every key present in [a] or [b], with count =
    count in [a] (0 if absent) + count in [b] (0 if absent). *)
Definition add_counts (a b : gmap K Z) : gmap K Z :=
  union_with (λ x y, Some (x + y)) a b.

(** [utils.add_nested_dictionaries(first_dict, second_dict)] on two dict
    objects.  Modelled from the spec: it produces a new mapping, here a
    newly allocated dict of the kind of [first_dict]. *)
Definition add_nested_dictionaries (first_dict second_dict : loc)
    : M state loc :=
  d1 <- get_dict first_dict ;;
  d2 <- get_dict second_dict ;;
  alloc (ODict (DictObj (d_default d1)
                        (add_counts (d_items d1) (d_items d2)))).

(** [BaseColumnProfiler._add_helper(merged_profile, other1, other2)].
    Modelled from the spec: the helper is not in the source; it aggregates
    the sample sizes and the timings of the two operands into the merged
    profile. *)
Definition _add_helper (merged_profile other1 other2 : loc) : M state unit :=
  p1 <- get_profile other1 ;;
  p2 <- get_profile other2 ;;
  pm <- get_profile merged_profile ;;
  set_profile merged_profile
    (Profile (name pm)
             (sample_size p1 + sample_size p2)
             (union_with (λ x y, Some (x + y)%Qc) (times p1) (times p2))
             (_categories pm)
             (_top_k_categories pm)).

(** [merged_profile._categories = d] *)
Definition set_categories (self : loc) (d : loc) : M state unit :=
  p <- get_profile self ;;
  set_profile self
    (Profile (name p) (sample_size p) (times p) d (_top_k_categories p)).

(** [__add__].  [_merge_calculations] runs over the three empty
    [__calculations] dicts and has nothing to do. *)
Definition __add__ (self other : loc) : M state loc :=
  b <- isinstance_CategoricalColumn other ;;
  if negb b then
    cn <- class_name_of other ;;
    raise (TypeError ("Unsupported operand type(s) for +: "
                      ++ "'CategoricalColumn' and '" ++ cn ++ "'"))
  else
    merged_profile <- __init__ None None ;;
    ps <- get_profile self ;;
    po <- get_profile other ;;
    d <- add_nested_dictionaries (_categories ps) (_categories po) ;;
    set_categories merged_profile d ;;;
    _add_helper merged_profile self other ;;;
    ret merged_profile.

(** ** diff *)

(** [sorted(d.items(), key=itemgetter(1), reverse=True)]: by descending
    count.  The model of a dict keeps no insertion order, so the order
    among equal counts is that of [map_to_list]. *)
Definition by_count_desc (x y : K * Z) : Prop := y.2 ≤ x.2.

#[global] Instance by_count_desc_dec : RelDecision by_count_desc :=
  λ x y, decide (y.2 ≤ x.2).

Definition sorted_items_desc (items : list (K * Z)) : list (K * Z) :=
  merge_sort by_count_desc items.

(** [differences["statistics"][key] = v] *)
Definition set_statistic (key : string) (v : V)
    (differences : gmap string rvalue) : M state (gmap string rvalue) :=
  match differences !! "statistics"%string with
  | Some (RStatistics st) =>
      ret (<["statistics"%string := RStatistics (<[key := v]> st)]>
             differences)
  | Some _ => raise (TypeError "object does not support item assignment")
  | None => raise KeyError
  end.

(** [len(xs)] as a number handed to [find_diff_of_numbers] *)
Definition len_num {A} (xs : list A) : option Qc :=
  Some (Qc_of_Z (Z.of_nat (length xs))).

(** [diff(self, other_profile, options)] *)
Definition diff (self other_profile : loc) : M state (gmap string rvalue) :=
  let differences := base_differences in
  m1 <- is_match self ;;
  m2 <- is_match other_profile ;;
  let differences :=
    <["categorical"%string :=
        RVal (find_diff_of_strings_and_bools m1 m2)]> differences in
  cats1 <- categories self ;;
  cats2 <- categories other_profile ;;
  ur1 <- unique_ratio self ;;
  ur2 <- unique_ratio other_profile ;;
  let differences :=
    <["statistics"%string :=
        RStatistics (list_to_map
          [("unique_count"%string,
            find_diff_of_numbers (len_num cats1) (len_num cats2));
           ("unique_ratio"%string,
            find_diff_of_numbers (Some ur1) (Some ur2))])]> differences in
  (* These stats are only diffed if both profiles are categorical *)
  m1' <- is_match self ;;
  both <- (if m1' then is_match other_profile else ret false) ;;
  if both then
    ps <- get_profile self ;;
    po <- get_profile other_profile ;;
    chi2 <- _perform_chi_squared_test (_categories ps) (_categories po) ;;
    let differences := <["chi2-test"%string := RChi2 chi2]> differences in
    cs1 <- categories self ;;
    cs2 <- categories other_profile ;;
    differences <- set_statistic "categories"
                     (find_diff_of_lists_and_sets cs1 cs2) differences ;;
    g1 <- gini_impurity self ;;
    g2 <- gini_impurity other_profile ;;
    differences <- set_statistic "gini_impurity"
                     (find_diff_of_numbers g1 g2) differences ;;
    u1 <- unalikeability self ;;
    u2 <- unalikeability other_profile ;;
    differences <- set_statistic "unalikeability"
                     (find_diff_of_numbers u1 u2) differences ;;
    ps' <- get_profile self ;;
    items1 <- dict_items (_categories ps') ;;
    let cat_count1 := sorted_items_desc items1 in
    po' <- get_profile other_profile ;;
    items2 <- dict_items (_categories po') ;;
    let cat_count2 := sorted_items_desc items2 in
    differences <- set_statistic "categorical_count"
                     (find_diff_of_dicts cat_count1 cat_count2) differences ;;
    ret differences
  else ret differences.

End Model.

Arguments profile : clear implicits.
Arguments obj K {_ _}.
Arguments state K {_ _}.
Arguments dictobj K {_ _}.
Arguments rvalue : clear implicits.

(** The keys of the "statistics" dict that [diff] fills in only when both
    profiles are categorical. *)
Definition categorical_only_keys : list string :=
  ["categories"; "gini_impurity"; "unalikeability"; "categorical_count"]%string.

(** ** Well-formed profiles and the sums the statistics are stated with *)

Section Spec.
Context {K : Type} `{Countable K}.

(** [self] is a [CategoricalColumn] with attributes [p] whose
    [_categories] is a dict object holding the counts [m]. *)
Definition profile_at (s : state K) (self : loc) (p : profile)
    (m : gmap K Z) : Prop :=
  heap s !! self = Some (OProfile p) ∧
  ∃ dflt, heap s !! _categories p = Some (ODict (DictObj dflt m)).

(** All counts of a frequency map are non-negative. *)
Definition counts_nonneg (m : gmap K Z) : Prop :=
  map_Forall (λ _ c, 0 ≤ c) m.

(** [Σ_i f(count_i)] over the categories of [m], in the rationals. *)
Definition sum_over (m : gmap K Z) (f : Z → Qc) : Qc :=
  foldr (λ kc acc, (f kc.2 + acc)%Qc) 0%Qc (map_to_list m).

(** [Σ_i f(count_i)] in the integers. *)
Definition sumZ_over (m : gmap K Z) (f : Z → Z) : Z :=
  foldr (λ kc acc, f kc.2 + acc) 0 (map_to_list m).

(** The term [p_i * (1 - p_i)] of the Gini sum, with [p_i = c / n]. *)
Definition gini_term (n c : Z) : Qc :=
  (Qc_of_Z c / Qc_of_Z n * (1 - Qc_of_Z c / Qc_of_Z n))%Qc.

(** The 2×k table of the homogeneity test, for two frequency maps [m1]
    (first group) and [m2] (second group). *)

(** The observed count of [cat] in a group, 0 when the key is absent. *)
Definition count (m : gmap K Z) (cat : K) : Z := default 0 (m !! cat).

(** The columns: the union of the two key sets. *)
Definition combined_categories (m1 m2 : gmap K Z) : list K :=
  elements (dom m1 ∪ dom m2).

(** A row sum is the total count of a group. *)
Definition row_sum (m : gmap K Z) : Z := sumZ_over m id.

(** A column sum is the total of a category over both groups. *)
Definition col_sum (m1 m2 : gmap K Z) (cat : K) : Z :=
  count m1 cat + count m2 cat.

Definition sumQ (xs : list Qc) : Qc := foldr Qcplus 0%Qc xs.

(** [row_sum * col_sum / grand_total] for the cell of group [row]. *)
Definition expected_count (m1 m2 row : gmap K Z) (cat : K) : Qc :=
  (Qc_of_Z (row_sum row * col_sum m1 m2 cat)
   / Qc_of_Z (row_sum m1 + row_sum m2))%Qc.

(** [(observed − expected)² / expected] for the cell of group [row]. *)
Definition chi2_cell (m1 m2 row : gmap K Z) (cat : K) : Qc :=
  ((Qc_of_Z (count row cat) - expected_count m1 m2 row cat) ^ 2
   / expected_count m1 m2 row cat)%Qc.

(** The sum of [chi2_cell] over all cells of the 2×k table. *)
Definition chi2_sum (m1 m2 : gmap K Z) : Qc :=
  (sumQ (chi2_cell m1 m2 m1 <$> combined_categories m1 m2)
   + sumQ (chi2_cell m1 m2 m2 <$> combined_categories m1 m2))%Qc.

(** A computation that, whatever its outcome, leaves the heap as it found
    it; it may extend the trace. *)
Definition heap_preserving {A} (m : M (state K) A) : Prop :=
  ∀ s, heap (m s).2 = heap s.

(** The number of distinct keys. *)
Definition unique_count (m : gmap K Z) : Z := Z.of_nat (size m).

End Spec.

(** ** The [profile] property and [update] *)

Section Report.
Context {K : Type} `{Countable K}.

(** A value of the "statistics" dict of the report: an int, a float, [None],
    the list of categories, or the ordered dict of counts as its list of
    items. *)
Inductive pvalue :=
  | PInt (z : Z)
  | PFloat (q : Qc)
  | PNone
  | PList (categories : list K)
  | PDict (items : list (K * Z)).

(** [None] or a number, as [gini_impurity] and [unalikeability] return. *)
Definition pvalue_of_option (o : option Qc) : pvalue :=
  match o with
  | Some q => PFloat q
  | None => PNone
  end.

(** The dict the [profile] property returns, with its three keys
    "categorical", "statistics" and "times". *)
Record profile_report := ProfileReport {
  categorical : bool;
  statistics : gmap string pvalue;
  report_times : gmap string Qc
}.

(** [xs[:k]]: everything when [k] is [None], the first [k] elements when
    [k >= 0], all but the last [-k] when [k < 0]. *)
Definition slice_to {A} (k : option Z) (xs : list A) : list A :=
  match k with
  | None => xs
  | Some k =>
      if decide (0 ≤ k) then take (Z.to_nat k) xs
      else take (Z.to_nat (Z.of_nat (length xs) + k)) xs
  end.

(** The [profile] property.  The record of attributes already bears the
    name [profile]. *)
Definition profile_property (self : loc) : M (state K) profile_report :=
  m <- is_match self ;;
  cats <- categories self ;;
  ur <- unique_ratio self ;;
  p <- get_profile self ;;
  let report :=
    ProfileReport m
      (list_to_map
         [("unique_count"%string, PInt (Z.of_nat (length cats)));
          ("unique_ratio"%string, PFloat ur)])
      (times p) in
  m' <- is_match self ;;
  if m' then
    cats' <- categories self ;;
    let report :=
      ProfileReport (categorical report)
        (<["categories"%string := PList cats']> (statistics report))
        (report_times report) in
    g <- gini_impurity self ;;
    let report :=
      ProfileReport (categorical report)
        (<["gini_impurity"%string := pvalue_of_option g]>
           (statistics report))
        (report_times report) in
    u <- unalikeability self ;;
    let report :=
      ProfileReport (categorical report)
        (<["unalikeability"%string := pvalue_of_option u]>
           (statistics report))
        (report_times report) in
    p1 <- get_profile self ;;
    items <- dict_items (_categories p1) ;;
    p2 <- get_profile self ;;
    let report :=
      ProfileReport (categorical report)
        (<["categorical_count"%string :=
             PDict (slice_to (_top_k_categories p2)
                      (sorted_items_desc items))]> (statistics report))
        (report_times report) in
    ret report
  else ret report.

(** [df_series.value_counts(dropna=False).to_dict()] for a series given as
    the list of its values, the missing value being a value like any
    other: each distinct value with its number of occurrences. *)
Definition value_counts (df_series : list K) : gmap K Z :=
  foldr (λ v m, <[v := default 0 (m !! v) + 1]> m) ∅ df_series.

(** The wrapper [BaseColumnProfiler._timeit(name)] around a method.
    Modelled from the spec: the wrapper is not in the source; it records
    the time the call took under the key [name], here [key].  The time is
    an input of the model. *)
Definition _timeit (key : string) (elapsed : Qc) (self : loc)
    : M (state K) unit :=
  p <- get_profile self ;;
  set_profile self
    (Profile (name p) (sample_size p)
       (<[key := (default 0%Qc (times p !! key) + elapsed)%Qc]> (times p))
       (_categories p) (_top_k_categories p)).

(** [_update_categories(self, df_series)], timed under "categories" *)
Definition _update_categories (elapsed : Qc) (self : loc)
    (df_series : list K) : M (state K) unit :=
  category_count <- alloc (ODict (DictObj false (value_counts df_series))) ;;
  p <- get_profile self ;;
  d <- add_nested_dictionaries (_categories p) category_count ;;
  set_categories self d ;;;
  _timeit "categories" elapsed self.

(** [BaseColumnProfiler._update_column_base_properties(profile)].
    Modelled from the spec: the method is not in the source; the sample
    size is the cumulative count of the observations seen. *)
Definition _update_column_base_properties (self : loc) (sample_size' : Z)
    : M (state K) unit :=
  p <- get_profile self ;;
  set_profile self
    (Profile (name p) (sample_size p + sample_size') (times p)
       (_categories p) (_top_k_categories p)).

(** [_update_helper(self, df_series_clean, profile)] *)
Definition _update_helper (self : loc) (df_series_clean : list K)
    (profile_sample_size : Z) : M (state K) unit :=
  _update_column_base_properties self profile_sample_size.

(** [update(self, df_series)].  [_perform_property_calcs] runs over the
    empty [__calculations] dict and has nothing to do. *)
Definition update (elapsed : Qc) (self : loc) (df_series : list K)
    : M (state K) loc :=
  if decide (length df_series = 0%nat) then ret self
  else
    let profile_sample_size := Z.of_nat (length df_series) in
    _update_categories elapsed self df_series ;;;
    _update_helper self df_series profile_sample_size ;;;
    ret self.

End Report.

Arguments pvalue : clear implicits.
Arguments profile_report : clear implicits.

(** ** An example store

    Two profiles [2] and [4] over identical counts {"x": 10, "y": 10} with
    sample size 20; an [int] at [5]; eleven categories of count 5 at [6],
    read by profile [7] with sample size 55 and by profile [8] with sample
    size 0; a dict with a zero count at [9] and an empty dict at [10]. *)

Definition xy_counts : gmap string Z :=
  {["x"%string := 10; "y"%string := 10]}.

Definition wide_counts : gmap string Z :=
  list_to_map ((λ k, (k, 5)) <$>
    ["a"; "b"; "c"; "d"; "e"; "f"; "g"; "h"; "i"; "j"; "k"]%string).

Definition profile_a : profile := Profile (Some "a"%string) 20 ∅ 1 None.
Definition profile_b : profile := Profile (Some "b"%string) 20 ∅ 3 None.
Definition profile_w : profile := Profile (Some "w"%string) 55 ∅ 6 None.
Definition profile_w0 : profile := Profile (Some "w0"%string) 0 ∅ 6 None.

Definition example_heap : gmap loc (obj string) :=
  <[1%positive := ODict (DictObj true xy_counts)]>
  (<[2%positive := OProfile profile_a]>
  (<[3%positive := ODict (DictObj true xy_counts)]>
  (<[4%positive := OProfile profile_b]>
  (<[5%positive := OOther "int"]>
  (<[6%positive := ODict (DictObj true wide_counts)]>
  (<[7%positive := OProfile profile_w]>
  (<[8%positive := OProfile profile_w0]>
  (<[9%positive := ODict (DictObj true {["x"%string := 0]})]>
  (<[10%positive := ODict (DictObj true ∅)]> ∅))))))))).

Definition example_state : state string := State example_heap [].

(** Stand-ins for the comparison helpers: every difference is [tt]. *)
Definition no_diff {A B} (_ : A) (_ : B) : unit := tt.

(** ** A second example store

    Two plain dicts over disjoint keys at [1] and [2]; two dicts with
    counts of mixed sign whose row sums cancel at [3] and [4]; three
    categories at [5], read by the profile [6] whose [top_k_categories]
    is 2. *)

Definition xy_plain : gmap string Z := {["x"%string := 3; "y"%string := 4]}.
Definition z_plain : gmap string Z := {["z"%string := 5]}.
Definition signed_1 : gmap string Z := {["x"%string := 1; "y"%string := -2]}.
Definition signed_2 : gmap string Z := {["x"%string := 2; "y"%string := -1]}.
Definition abc_counts : gmap string Z :=
  {["a"%string := 5; "b"%string := 3; "c"%string := 1]}.

Definition profile_t : profile := Profile (Some "t"%string) 9 ∅ 5 (Some 2).

Definition second_heap : gmap loc (obj string) :=
  <[1%positive := ODict (DictObj false xy_plain)]>
  (<[2%positive := ODict (DictObj false z_plain)]>
  (<[3%positive := ODict (DictObj true signed_1)]>
  (<[4%positive := ODict (DictObj true signed_2)]>
  (<[5%positive := ODict (DictObj true abc_counts)]>
  (<[6%positive := OProfile profile_t]> ∅))))).

Definition second_state : state string := State second_heap [].

(** * Theorems *)

Section RunLemmas.
Context {K : Type} `{Countable K}.
Implicit Types (s : state K) (l self : loc) (p : profile) (d : dictobj K).

Lemma bind_ret_run {A B} (m : M (state K) A) (f : A → M (state K) B) s a s' :
  m s = (Ret a, s') → bind m f s = f a s'.
Proof. intros Hm. unfold bind. by rewrite Hm. Qed.

Lemma bind_raise_run {A B} (m : M (state K) A) (f : A → M (state K) B)
    s e s' :
  m s = (Raise e, s') → bind m f s = (Raise e, s').
Proof. intros Hm. unfold bind. by rewrite Hm. Qed.

Lemma bind_bind {A B C} (m : M (state K) A) (f : A → M (state K) B)
    (g : B → M (state K) C) s :
  bind (bind m f) g s = bind m (λ x, bind (f x) g) s.
Proof. unfold bind. by destruct (m s) as [[a|e] s']. Qed.

Lemma bind_ret_l {A B} (a : A) (f : A → M (state K) B) s :
  bind (ret a) f s = f a s.
Proof. done. Qed.

Lemma get_profile_run s l p :
  heap s !! l = Some (OProfile p) → get_profile l s = (Ret p, s).
Proof. intros Hl. unfold get_profile, bind, get_heap. by rewrite Hl. Qed.

Lemma get_dict_run s l d :
  heap s !! l = Some (ODict d) → get_dict l s = (Ret d, s).
Proof. intros Hl. unfold get_dict, bind, get_heap. by rewrite Hl. Qed.

Lemma get_sample_size_run s l p :
  heap s !! l = Some (OProfile p) →
  get_sample_size l s = (Ret (sample_size p), s).
Proof.
  intros Hl. unfold get_sample_size.
  by rewrite (bind_ret_run _ _ _ _ _ (get_profile_run _ _ _ Hl)).
Qed.

Lemma dict_len_run s l d :
  heap s !! l = Some (ODict d) →
  dict_len l s = (Ret (unique_count (d_items d)), s).
Proof.
  intros Hl. unfold dict_len.
  by rewrite (bind_ret_run _ _ _ _ _ (get_dict_run _ _ _ Hl)).
Qed.

Lemma dict_keys_run s l d :
  heap s !! l = Some (ODict d) →
  dict_keys l s = (Ret ((map_to_list (d_items d)).*1), s).
Proof.
  intros Hl. unfold dict_keys.
  by rewrite (bind_ret_run _ _ _ _ _ (get_dict_run _ _ _ Hl)).
Qed.

Lemma dict_items_run s l d :
  heap s !! l = Some (ODict d) →
  dict_items l s = (Ret (map_to_list (d_items d)), s).
Proof.
  intros Hl. unfold dict_items.
  by rewrite (bind_ret_run _ _ _ _ _ (get_dict_run _ _ _ Hl)).
Qed.

Lemma dict_contains_run s l d k :
  heap s !! l = Some (ODict d) →
  dict_contains l k s = (Ret (bool_decide (is_Some (d_items d !! k))), s).
Proof.
  intros Hl. unfold dict_contains.
  by rewrite (bind_ret_run _ _ _ _ _ (get_dict_run _ _ _ Hl)).
Qed.

(** Subscripting on a key that is present reads and changes nothing. *)
Lemma dict_getitem_run s l d k c :
  heap s !! l = Some (ODict d) → d_items d !! k = Some c →
  dict_getitem l k s = (Ret c, s).
Proof.
  intros Hl Hk. unfold dict_getitem.
  rewrite (bind_ret_run _ _ _ _ _ (get_dict_run _ _ _ Hl)).
  by rewrite Hk.
Qed.

(** On a missing key a [defaultdict] is written to: the guard
    [cat in categories] of the chi-squared test is what keeps its
    operands unchanged. *)
Lemma dict_getitem_default_inserts s l (m : gmap K Z) k :
  heap s !! l = Some (ODict (DictObj true m)) → m !! k = None →
  dict_getitem l k s =
    (Ret 0,
     State (<[l := ODict (DictObj true (<[k := 0]> m))]> (heap s)) (trace s)).
Proof.
  intros Hl Hk. unfold dict_getitem.
  rewrite (bind_ret_run _ _ _ _ _ (get_dict_run _ _ _ Hl)).
  cbn [d_items d_default]. by rewrite Hk.
Qed.

Lemma truediv_run s a b :
  b ≠ 0 → truediv a b s = (Ret (Qc_of_Z a / Qc_of_Z b)%Qc, s).
Proof. intros Hb. unfold truediv. by rewrite decide_False. Qed.

Lemma truediv_float_run s (x y : Qc) :
  y ≠ 0%Qc → truediv_float x y s = (Ret (x / y)%Qc, s).
Proof. intros Hy. unfold truediv_float. by rewrite decide_False. Qed.

Lemma list_getitem_run {A} s (xs : list A) i x :
  xs !! i = Some x → list_getitem xs i s = (Ret x, s).
Proof. intros Hx. unfold list_getitem. by rewrite Hx. Qed.

(** A comprehension whose body only reads. *)
Lemma map_each_pure {A B} s (xs : list A) (g : A → M (state K) B)
    (f : A → B) :
  (∀ x, x ∈ xs → g x s = (Ret (f x), s)) →
  map_each xs g s = (Ret (f <$> xs), s).
Proof.
  induction xs as [|x xs IH]; intros Hg; [done|].
  cbn [map_each]. rewrite (bind_ret_run _ _ _ _ _ (Hg x (list_elem_of_here _ _))).
  rewrite (bind_ret_run _ _ _ _ _ (IH (λ y Hy, Hg y (list_elem_of_further _ _ _ Hy)))).
  done.
Qed.

(** A loop that adds one rational term per element, reading only. *)
Lemma for_each_sum {A} s (xs : list A) (g : Qc → A → M (state K) Qc)
    (f : A → Qc) (acc : Qc) :
  (∀ a x, x ∈ xs → g a x s = (Ret (a + f x)%Qc, s)) →
  for_each xs acc g s = (Ret (acc + sumQ (f <$> xs))%Qc, s).
Proof.
  revert acc. induction xs as [|x xs IH]; intros acc Hg.
  - cbn. unfold ret. by rewrite Qcplus_0_r.
  - cbn [for_each].
    rewrite (bind_ret_run _ _ _ _ _ (Hg acc x (list_elem_of_here _ _))).
    rewrite IH by (intros a y Hy; apply Hg; by right).
    cbn. by rewrite Qcplus_assoc.
Qed.

(** Reading a list through its indices is reading the list. *)
Lemma fmap_seq_lookup {A B} (l : list A) (f : nat → B) (h : A → B) :
  (∀ j x, l !! j = Some x → f j = h x) →
  f <$> seq 0 (length l) = h <$> l.
Proof.
  intros Hf. apply list_eq. intros i. rewrite !list_lookup_fmap.
  destruct (l !! i) as [x|] eqn:Hi.
  - rewrite lookup_seq_lt by (by eapply lookup_lt_Some).
    simpl. f_equal. by apply Hf.
  - rewrite lookup_seq_ge; [done|]. by apply lookup_ge_None.
Qed.

End RunLemmas.

Create HintDb run discriminated.
#[global] Hint Resolve get_profile_run get_dict_run get_sample_size_run
  dict_len_run dict_keys_run dict_items_run dict_contains_run
  dict_getitem_run truediv_run truediv_float_run : run.

(** One step of a computation whose head is a primitive that returns. *)
Ltac mstep :=
  rewrite ?bind_bind, ?bind_ret_l;
  erewrite bind_ret_run by (eauto with run).
Ltac msteps := repeat mstep.

Section Classifier.
Context {K : Type} `{Countable K}.
Implicit Types (s : state K) (self : loc) (p : profile) (m : gmap K Z).

Lemma profile_at_self s self p m :
  profile_at s self p m → heap s !! self = Some (OProfile p).
Proof. by intros [? _]. Qed.

Lemma profile_at_dict s self p m :
  profile_at s self p m →
  ∃ d, heap s !! _categories p = Some (ODict d) ∧ d_items d = m.
Proof. intros [_ [dflt Hd]]. by eexists. Qed.

Lemma categories_run s self p m :
  profile_at s self p m →
  categories self s = (Ret ((map_to_list m).*1), s).
Proof.
  intros Hp. pose proof (profile_at_self _ _ _ _ Hp) as Hself.
  destruct (profile_at_dict _ _ _ _ Hp) as (d & Hd & <-).
  unfold categories. mstep. eauto with run.
Qed.

Lemma length_keys m : Z.of_nat (length ((map_to_list m).*1)) = unique_count m.
Proof. unfold unique_count. by rewrite length_fmap, length_map_to_list. Qed.

Lemma unique_ratio_run s self p m :
  profile_at s self p m →
  unique_ratio self s =
    (Ret (if decide (sample_size p = 0) then 1%Qc
          else (Qc_of_Z (unique_count m) / Qc_of_Z (sample_size p))%Qc), s).
Proof.
  intros Hp. pose proof (profile_at_self _ _ _ _ Hp) as Hself.
  unfold unique_ratio. mstep.
  destruct (decide (sample_size p = 0)) as [Hz|Hnz].
  - by rewrite decide_False by tauto.
  - rewrite decide_True by done.
    rewrite (bind_ret_run _ _ _ _ _ (categories_run _ _ _ _ Hp)).
    mstep. rewrite length_keys. by apply truediv_run.
Qed.

(** C10.  With [sample_size == 0] the property [unique_ratio] is exactly
    1.0, however many keys [_categories] holds; the division by
    [sample_size] is evaluated only when [sample_size] is nonzero, and then
    it is the number of keys over the sample size. *)
Theorem unique_ratio_default s self p m :
  profile_at s self p m →
  (sample_size p = 0 → unique_ratio self s = (Ret 1%Qc, s)) ∧
  (sample_size p ≠ 0 →
     unique_ratio self s =
       (Ret (Qc_of_Z (unique_count m) / Qc_of_Z (sample_size p))%Qc, s)).
Proof.
  intros Hp. rewrite (unique_ratio_run _ _ _ _ Hp). split; intros Hn.
  - by rewrite decide_True.
  - by rewrite decide_False.
Qed.

Lemma is_match_run s self p m :
  profile_at s self p m →
  is_match self s =
    (Ret (bool_decide
            (unique_count m ≤ _MAXIMUM_UNIQUE_VALUES_TO_CLASSIFY_AS_CATEGORICAL
             ∨ (sample_size p ≠ 0 ∧
                (Qc_of_Z (unique_count m) / Qc_of_Z (sample_size p)
                 ≤ _CATEGORICAL_THRESHOLD_DEFAULT)%Qc))), s).
Proof.
  intros Hp. pose proof (profile_at_self _ _ _ _ Hp) as Hself.
  destruct (profile_at_dict _ _ _ _ Hp) as (d & Hd & <-).
  unfold is_match. msteps.
  destruct (decide (unique_count (d_items d) ≤ _)) as [Hle|Hgt].
  { by rewrite bool_decide_eq_true_2 by (by left). }
  mstep. destruct (decide (sample_size p ≠ 0)) as [Hnz|Hz].
  - rewrite (bind_ret_run _ _ _ _ _ (unique_ratio_run _ _ _ _ Hp)).
    rewrite (decide_False (P := sample_size p = 0)) by done.
    destruct (decide (_ ≤ _)%Qc) as [Hr|Hr].
    + by rewrite bool_decide_eq_true_2 by (by right).
    + by rewrite bool_decide_eq_false_2 by tauto.
  - by rewrite bool_decide_eq_false_2 by tauto.
Qed.

(** C1.  [is_match] returns, and without touching the store.  It is true
    when there are at most 10 distinct keys, whatever the sample size.
    With more than 10 keys it is true exactly when the sample size is
    positive and the number of keys over the sample size is at most 0.2;
    with more than 10 keys and [sample_size == 0] it is false, no division
    having been attempted. *)
Theorem is_match_classifier s self p m :
  profile_at s self p m →
  ∃ b, is_match self s = (Ret b, s) ∧
    (unique_count m ≤ 10 → b = true) ∧
    (10 < unique_count m → 0 ≤ sample_size p →
       (b = true ↔
        0 < sample_size p ∧
        (Qc_of_Z (unique_count m) / Qc_of_Z (sample_size p)
         ≤ _CATEGORICAL_THRESHOLD_DEFAULT)%Qc)) ∧
    (10 < unique_count m → sample_size p = 0 → b = false).
Proof.
  intros Hp. eexists. split; [by apply is_match_run|].
  unfold _MAXIMUM_UNIQUE_VALUES_TO_CLASSIFY_AS_CATEGORICAL.
  split; [|split].
  - intros Hle. by rewrite bool_decide_eq_true_2 by (by left).
  - intros Hgt Hnn. rewrite bool_decide_eq_true. split.
    + intros [?|[? ?]]; [lia|]. split; [lia|done].
    + intros [? ?]. right. split; [lia|done].
  - intros Hgt Hz. apply bool_decide_eq_false_2. intros [?|[? _]]; lia.
Qed.

End Classifier.

Section Diversity.
Context {K : Type} `{Countable K}.
Implicit Types (s : state K) (self : loc) (p : profile) (m : gmap K Z).

Lemma categories_getitem_run s self p m k c :
  profile_at s self p m → m !! k = Some c →
  categories_getitem self k s = (Ret c, s).
Proof.
  intros Hp Hk. pose proof (profile_at_self _ _ _ _ Hp) as Hself.
  destruct (profile_at_dict _ _ _ _ Hp) as (d & Hd & <-).
  unfold categories_getitem. mstep. eauto with run.
Qed.

Lemma gini_loop s self p m (l : list (K * Z)) (acc : Qc) :
  profile_at s self p m → sample_size p ≠ 0 →
  (∀ k c, (k, c) ∈ l → m !! k = Some c) →
  for_each (l.*1) acc (λ gini_sum i,
      c1 <- categories_getitem self i ;;
      n1 <- get_sample_size self ;;
      p1 <- truediv c1 n1 ;;
      c2 <- categories_getitem self i ;;
      n2 <- get_sample_size self ;;
      p2 <- truediv c2 n2 ;;
      ret (gini_sum + p1 * (1 - p2))%Qc) s
  = (Ret (acc + foldr (λ kc a, gini_term (sample_size p) kc.2 + a) 0 l)%Qc, s).
Proof.
  intros Hp Hn. pose proof (profile_at_self _ _ _ _ Hp) as Hself.
  revert acc. induction l as [|[k c] l IH]; intros acc Hl; simpl.
  - unfold ret. by rewrite Qcplus_0_r.
  - assert (m !! k = Some c) as Hk by (apply Hl; left).
    pose proof (categories_getitem_run _ _ _ _ _ _ Hp Hk) as Hget.
    msteps. rewrite bind_ret_l.
    rewrite IH by (intros; apply Hl; by right).
    unfold gini_term. by rewrite Qcplus_assoc.
Qed.

Lemma gini_impurity_run s self p m :
  profile_at s self p m →
  gini_impurity self s =
    (Ret (if decide (sample_size p = 0) then None
          else Some (sum_over m (gini_term (sample_size p)))), s).
Proof.
  intros Hp. pose proof (profile_at_self _ _ _ _ Hp) as Hself.
  destruct (profile_at_dict _ _ _ _ Hp) as (d & Hd & Hm).
  unfold gini_impurity. mstep.
  destruct (decide (sample_size p = 0)) as [Hz|Hnz]; [done|].
  msteps. rewrite Hm.
  erewrite bind_ret_run; last first.
  { apply (gini_loop _ _ _ _ _ _ Hp Hnz). intros k c.
    by rewrite elem_of_map_to_list. }
  unfold sum_over. by rewrite Qcplus_0_l.
Qed.



Lemma Z2Qc_nonzero (z : Z) : z ≠ 0 → Qc_of_Z z ≠ 0%Qc.
Proof. intros Hz Heq. apply Hz, Z2Qc_inj. by rewrite Z2Qc_inj_0. Qed.


Lemma unalike_loop s self p m (l : list (K * Z)) (acc : Z) :
  profile_at s self p m →
  (∀ k c, (k, c) ∈ l → m !! k = Some c) →
  for_each (l.*1) acc (λ unalike_sum category,
      n1 <- get_sample_size self ;;
      c1 <- categories_getitem self category ;;
      c2 <- categories_getitem self category ;;
      ret (unalike_sum + (n1 - c1) * c2)) s
  = (Ret (acc + foldr (λ kc a, (sample_size p - kc.2) * kc.2 + a) 0 l), s).
Proof.
  intros Hp. pose proof (profile_at_self _ _ _ _ Hp) as Hself.
  revert acc. induction l as [|[k c] l IH]; intros acc Hl; simpl.
  - unfold ret. by rewrite Z.add_0_r.
  - assert (m !! k = Some c) as Hk by (apply Hl; left).
    pose proof (categories_getitem_run _ _ _ _ _ _ Hp Hk) as Hget.
    msteps. rewrite bind_ret_l.
    rewrite IH by (intros; apply Hl; by right).
    by rewrite Z.add_assoc.
Qed.

Lemma unalikeability_run s self p m :
  profile_at s self p m →
  unalikeability self s =
    (Ret (if decide (sample_size p = 0) then None
          else if decide (sample_size p = 1) then Some 0%Qc
          else Some (Qc_of_Z (sumZ_over m (λ c, (sample_size p - c) * c)%Z)
                     / Qc_of_Z (sample_size p ^ 2 - sample_size p))%Qc), s).
Proof.
  intros Hp. pose proof (profile_at_self _ _ _ _ Hp) as Hself.
  destruct (profile_at_dict _ _ _ _ Hp) as (d & Hd & Hm).
  unfold unalikeability. mstep.
  destruct (decide (sample_size p = 0)) as [Hz|Hnz]; [done|].
  mstep. destruct (decide (sample_size p = 1)) as [H1|Hn1]; [done|].
  msteps. rewrite Hm.
  erewrite bind_ret_run; last first.
  { apply (unalike_loop _ _ _ _ _ _ Hp). intros k c.
    by rewrite elem_of_map_to_list. }
  msteps. rewrite Z.add_0_l.
  erewrite bind_ret_run by (apply truediv_run; nia). done.
Qed.

Lemma sumZ_over_uniform m (c : Z) (f : Z → Z) :
  map_Forall (λ _ x, x = c) m →
  sumZ_over m f = unique_count m * f c.
Proof.
  unfold sumZ_over, unique_count. rewrite map_Forall_to_list.
  rewrite <-length_map_to_list.
  induction (map_to_list m) as [|[k x] l IH]; intros Hall.
  - done.
  - apply Forall_cons in Hall as [Hx Hall]. simpl in Hx. subst x.
    cbn [foldr length snd]. rewrite (IH Hall). lia.
Qed.

(** For non-negative integer counts that add up to [n], the sum of
    [(n - c) * c] lies between 0 and [n * n - n]. *)
Lemma unalike_sum_bounds (l : list (K * Z)) (n : Z) :
  Forall (λ kc, 0 ≤ kc.2) l →
  foldr (λ kc a, kc.2 + a) 0 l = n →
  0 ≤ foldr (λ kc a, (n - kc.2) * kc.2 + a) 0 l ≤ n * n - n.
Proof.
  intros Hnn Hsum.
  assert (∀ N, foldr (λ kc a, (N - kc.2) * kc.2 + a) 0 l
             = N * foldr (λ kc a, kc.2 + a) 0 l
               - foldr (λ kc a, kc.2 * kc.2 + a) 0 l) as Hsplit.
  { intros N. clear Hnn Hsum.
    induction l as [|[k c] l IH]; cbn [foldr snd]; [lia|].
    rewrite IH. lia. }
  rewrite Hsplit, Hsum. clear Hsplit. subst n.
  induction l as [|[k c] l IH]; cbn [foldr snd]; [lia|].
  apply Forall_cons in Hnn as [Hc Hnn]. simpl in Hc.
  specialize (IH Hnn).
  assert (0 ≤ foldr (λ kc a, kc.2 + a) 0 l) as Hpos.
  { clear IH. induction l as [|[k' c'] l IH']; cbn [foldr snd]; [lia|].
    apply Forall_cons in Hnn as [Hc' Hnn]. simpl in Hc'.
    specialize (IH' Hnn). lia. }
  nia.
Qed.

Lemma Qc_div_bounds (a b : Z) :
  0 < b → 0 ≤ a ≤ b → (0 ≤ Qc_of_Z a / Qc_of_Z b ≤ 1)%Qc.
Proof.
  intros Hb [Ha Hab].
  assert (0 < Qc_of_Z b)%Qc as Hb'.
  { rewrite <-Z2Qc_inj_0. by rewrite <-Z2Qc_inj_lt. }
  assert (Qc_of_Z a / Qc_of_Z b * Qc_of_Z b = Qc_of_Z a)%Qc as Hmul.
  { field. intros Heq. rewrite Heq in Hb'. by apply Qclt_not_eq in Hb'. }
  split.
  - apply (Qcmult_le_mono_pos_r _ _ (Qc_of_Z b)); [done|].
    rewrite Hmul, Qcmult_0_l, <-Z2Qc_inj_0. by rewrite <-Z2Qc_inj_le.
  - apply (Qcmult_le_mono_pos_r _ _ (Qc_of_Z b)); [done|].
    rewrite Hmul, Qcmult_1_l. by rewrite <-Z2Qc_inj_le.
Qed.

(** C6.  [unalikeability] is [None] when [sample_size == 0], exactly 0 when
    [sample_size == 1], and otherwise the sum over the categories of
    [(n - c_i) * c_i], divided by [n² - n].  When the counts are
    non-negative and add up to [n] the result lies in [0, 1]; for two
    categories of count [n / 2] each, [n] even and positive, it equals
    [n²/4 / (n² - n) * 2]. *)
Theorem unalikeability_spec s self p m :
  profile_at s self p m →
  let n := sample_size p in
  (n = 0 → unalikeability self s = (Ret None, s)) ∧
  (n = 1 → unalikeability self s = (Ret (Some 0%Qc), s)) ∧
  (n ≠ 0 → n ≠ 1 →
     unalikeability self s =
       (Ret (Some (Qc_of_Z (sumZ_over m (λ c, (n - c) * c)%Z)
                   / Qc_of_Z (n ^ 2 - n))%Qc), s)) ∧
  (counts_nonneg m → sumZ_over m id = n →
     ∀ u, unalikeability self s = (Ret (Some u), s) → (0 ≤ u ≤ 1)%Qc) ∧
  (∀ h, map_Forall (λ _ c, c = h) m → unique_count m = 2 →
     n = 2 * h → 0 < n →
     unalikeability self s =
       (Ret (Some (Qc_of_Z (n ^ 2) / Qc_of_Z 4
                   / Qc_of_Z (n ^ 2 - n) * Qc_of_Z 2)%Qc), s)).
Proof.
  intros Hp n. subst n. rewrite (unalikeability_run _ _ _ _ Hp).
  split; [|split; [|split; [|split]]].
  - intros Hz. by rewrite decide_True.
  - intros H1. rewrite decide_False by lia. by rewrite decide_True.
  - intros Hnz Hn1. by rewrite !decide_False.
  - intros Hnn Hsum u Hu.
    destruct (decide (sample_size p = 0)); [done|].
    destruct (decide (sample_size p = 1)).
    { injection Hu as <-. by split. }
    injection Hu as <-.
    apply map_Forall_to_list in Hnn.
    assert (Forall (λ kc : K * Z, 0 ≤ kc.2) (map_to_list m)) as Hnn'.
    { eapply Forall_impl; [exact Hnn|]. by intros [k c]. }
    pose proof (unalike_sum_bounds _ _ Hnn' Hsum) as Hb.
    unfold sumZ_over. apply Qc_div_bounds; [|lia].
    assert (0 ≤ sample_size p).
    { rewrite <-Hsum. unfold sumZ_over. clear Hb Hnn.
      induction (map_to_list m) as [|[k c] l IH]; cbn [foldr snd]; [done|].
      apply Forall_cons in Hnn' as [Hc Hnn']. simpl in Hc.
      specialize (IH Hnn'). unfold id at 1. lia. }
    nia.
  - intros h Hall Hsz Hn Hpos. rewrite !decide_False by lia.
    rewrite (sumZ_over_uniform _ _ _ Hall), Hsz.
    do 3 f_equal. rewrite Hn.
    replace (2 * ((2 * h - h) * h)) with (2 * (h * h)) by lia.
    replace ((2 * h) ^ 2) with (4 * (h * h)) by lia.
    rewrite !Z2Qc_inj_mul.
    assert (Qc_of_Z (4 * (h * h) - 2 * h) ≠ 0%Qc) by (apply Z2Qc_nonzero; nia).
    assert (Qc_of_Z 4 ≠ 0%Qc) by (by apply Z2Qc_nonzero).
    by field.
Qed.

End Diversity.

Section Merge.
Context {K : Type} `{Countable K}.
Implicit Types (s : state K) (self other l : loc) (p : profile)
  (m a b c : gmap K Z).

Lemma lookup_add_counts a b k :
  add_counts a b !! k =
    match a !! k, b !! k with
    | Some x, Some y => Some (x + y)
    | Some x, None => Some x
    | None, Some y => Some y
    | None, None => None
    end.
Proof.
  unfold add_counts. rewrite lookup_union_with.
  by destruct (a !! k), (b !! k).
Qed.

Lemma add_counts_comm a b : add_counts a b = add_counts b a.
Proof.
  apply map_eq. intros k. rewrite !lookup_add_counts.
  destruct (a !! k), (b !! k); f_equal; lia.
Qed.

Lemma add_counts_assoc a b c :
  add_counts (add_counts a b) c = add_counts a (add_counts b c).
Proof.
  apply map_eq. intros k. rewrite !lookup_add_counts.
  destruct (a !! k), (b !! k), (c !! k); f_equal; lia.
Qed.

Lemma dom_add_counts a b : dom (add_counts a b) = dom a ∪ dom b.
Proof.
  apply set_eq. intros k.
  rewrite elem_of_union, !elem_of_dom, lookup_add_counts.
  destruct (a !! k), (b !! k); rewrite ?is_Some_alt; tauto.
Qed.

Lemma alloc_run s (o : obj K) :
  alloc o s = (Ret (fresh (dom (heap s))),
               State (<[fresh (dom (heap s)) := o]> (heap s)) (trace s)).
Proof. reflexivity. Qed.

Lemma set_profile_run s l p p' :
  heap s !! l = Some (OProfile p) →
  set_profile l p' s =
    (Ret tt, State (<[l := OProfile p']> (heap s)) (trace s)).
Proof. intros Hl. unfold set_profile, bind, get_heap. by rewrite Hl. Qed.

Lemma isinstance_profile_run s l p :
  heap s !! l = Some (OProfile p) →
  isinstance_CategoricalColumn l s = (Ret true, s).
Proof.
  intros Hl. unfold isinstance_CategoricalColumn, bind, get_heap.
  by rewrite Hl.
Qed.

Lemma fresh_lookup_ne (h : gmap loc (obj K)) l :
  is_Some (h !! l) → l ≠ fresh (dom h).
Proof.
  intros Hl ->. apply elem_of_dom in Hl. by apply is_fresh in Hl.
Qed.

Lemma fresh_lookup_None (h : gmap loc (obj K)) : h !! fresh (dom h) = None.
Proof. apply not_elem_of_dom, is_fresh. Qed.

(** What [__add__] does on two profiles: the operands and everything else
    that was in the store stay as they were, the trace is unchanged, and
    the result is a new object whose counts are [add_counts] of the
    operands' counts. *)
Lemma __add___run s self other pa pb a b :
  profile_at s self pa a → profile_at s other pb b →
  ∃ l s' pm,
    __add__ self other s = (Ret l, s') ∧
    heap s !! l = None ∧
    heap s !! _categories pm = None ∧
    (∀ l', is_Some (heap s !! l') → heap s' !! l' = heap s !! l') ∧
    trace s' = trace s ∧
    profile_at s' l pm (add_counts a b) ∧
    sample_size pm = sample_size pa + sample_size pb.
Proof.
  intros [Hself (da & Hda)] [Hother (db & Hdb)].
  destruct s as [h t]. simpl in *.
  set (l1 := fresh (dom h)).
  set (h1 := <[l1 := ODict (DictObj true ∅)]> h).
  set (l2 := fresh (dom h1)).
  set (h2 := <[l2 := OProfile (Profile None 0 ∅ l1 None)]> h1).
  set (l3 := fresh (dom h2)).
  set (h3 := <[l3 := ODict (DictObj da (add_counts a b))]> h2).
  set (pm := Profile None (sample_size pa + sample_size pb)
               (union_with (λ x y, Some (x + y)%Qc) (times pa) (times pb))
               l3 None).
  assert (∀ l' o, h !! l' = Some o → h1 !! l' = Some o) as Hext1.
  { intros l' o Hl'. unfold h1. rewrite lookup_insert_ne; [done|].
    apply not_eq_sym, fresh_lookup_ne. by eexists. }
  assert (∀ l' o, h1 !! l' = Some o → h2 !! l' = Some o) as Hext2.
  { intros l' o Hl'. unfold h2. rewrite lookup_insert_ne; [done|].
    apply not_eq_sym, fresh_lookup_ne. by eexists. }
  assert (∀ l' o, h2 !! l' = Some o → h3 !! l' = Some o) as Hext3.
  { intros l' o Hl'. unfold h3. rewrite lookup_insert_ne; [done|].
    apply not_eq_sym, fresh_lookup_ne. by eexists. }
  assert (h2 !! l2 = Some (OProfile (Profile None 0 ∅ l1 None))) as Hl2.
  { unfold h2. by rewrite lookup_insert_eq. }
  assert (h !! l2 = None) as Hl2h.
  { destruct (h !! l2) as [o|] eqn:Hl; [|done].
    apply Hext1 in Hl. pose proof (fresh_lookup_None h1) as Hf.
    fold l2 in Hf. congruence. }
  assert (h !! l3 = None) as Hl3h.
  { destruct (h !! l3) as [o|] eqn:Hl; [|done].
    apply Hext1, Hext2 in Hl. pose proof (fresh_lookup_None h2) as Hf.
    fold l3 in Hf. congruence. }
  assert (l3 ≠ l2) as Hl32.
  { intros Heq. pose proof (fresh_lookup_None h2) as Hf. fold l3 in Hf.
    rewrite Heq in Hf. congruence. }
  exists l2, (State (<[l2 := OProfile pm]>
                (<[l2 := OProfile (Profile None 0 ∅ l3 None)]> h3)) t), pm.
  split; [|split; [done|split; [done|split; [|split; [done|split; [|done]]]]]].
  - unfold __add__.
    erewrite bind_ret_run by (by eapply (isinstance_profile_run (State h t))).
    cbn [negb]. unfold __init__.
    rewrite bind_bind. erewrite bind_ret_run by apply alloc_run.
    erewrite bind_ret_run by apply alloc_run.
    cbn [heap trace]. fold l1 h1 l2 h2.
    erewrite bind_ret_run; last first.
    { apply get_profile_run. cbn [heap]. by apply Hext2, Hext1. }
    erewrite bind_ret_run; last first.
    { apply get_profile_run. cbn [heap]. by apply Hext2, Hext1. }
    unfold add_nested_dictionaries. rewrite bind_bind.
    erewrite bind_ret_run; last first.
    { apply get_dict_run. cbn [heap]. by apply Hext2, Hext1. }
    rewrite bind_bind.
    erewrite bind_ret_run; last first.
    { apply get_dict_run. cbn [heap]. by apply Hext2, Hext1. }
    erewrite bind_ret_run by apply alloc_run.
    cbn [heap trace d_default d_items]. fold l3 h3.
    unfold set_categories. rewrite bind_bind.
    erewrite bind_ret_run; last first.
    { apply get_profile_run. cbn [heap]. by apply Hext3. }
    erewrite bind_ret_run; last first.
    { eapply set_profile_run. cbn [heap]. by apply Hext3. }
    cbn [heap trace name sample_size times _top_k_categories].
    unfold _add_helper. rewrite bind_bind.
    erewrite bind_ret_run; last first.
    { apply get_profile_run. cbn [heap].
      rewrite lookup_insert_ne by (intros ->; congruence).
      by apply Hext3, Hext2, Hext1. }
    rewrite bind_bind.
    erewrite bind_ret_run; last first.
    { apply get_profile_run. cbn [heap].
      rewrite lookup_insert_ne by (intros ->; congruence).
      by apply Hext3, Hext2, Hext1. }
    rewrite bind_bind.
    erewrite bind_ret_run; last first.
    { apply get_profile_run. cbn [heap]. by rewrite lookup_insert_eq. }
    erewrite bind_ret_run; last first.
    { eapply set_profile_run. cbn [heap]. by rewrite lookup_insert_eq. }
    done.
  - intros l' [o Hl']. cbn [heap].
    rewrite !lookup_insert_ne by (intros ->; congruence).
    rewrite Hl'. by apply Hext3, Hext2, Hext1.
  - split; cbn [heap].
    + by rewrite lookup_insert_eq.
    + exists da. cbn [_categories pm].
      rewrite !lookup_insert_ne by done.
      unfold h3. by rewrite lookup_insert_eq.
Qed.

End Merge.

Section ChiSquared.
Context {K : Type} `{Countable K}.
Variable scipy_stats_chi2_cdf : option (Z → Qc → Qc).
Implicit Types (s : state K) (d : dictobj K) (m : gmap K Z).

Lemma count_or_zero_run s (c : loc) d cat :
  heap s !! c = Some (ODict d) →
  count_or_zero c cat s = (Ret (count (d_items d) cat), s).
Proof.
  intros Hc. unfold count_or_zero, count. mstep.
  destruct (d_items d !! cat) as [x|] eqn:Hcat.
  - rewrite bool_decide_eq_true_2 by done. eauto with run.
  - rewrite bool_decide_eq_false_2; [done|]. by intros [? ?].
Qed.

Lemma keys_to_set m : list_to_set ((map_to_list m).*1) = dom m :> gset K.
Proof. apply leibniz_equiv. by rewrite dom_alt. Qed.

Lemma foldl_add_shift (xs : list Z) (a : Z) :
  foldl Z.add a xs = a + foldl Z.add 0 xs.
Proof.
  revert a. induction xs as [|x xs IH]; intros a; cbn [foldl]; [lia|].
  rewrite (IH (a + x)), (IH (0 + x)). lia.
Qed.

Lemma sum_list_cons (x : Z) (xs : list Z) :
  sum_list (x :: xs) = x + sum_list xs.
Proof. unfold sum_list. cbn [foldl]. by rewrite foldl_add_shift. Qed.

Lemma sum_list_app (xs ys : list Z) :
  sum_list (xs ++ ys) = sum_list xs + sum_list ys.
Proof.
  induction xs as [|x xs IH]; [done|].
  rewrite <-app_comm_cons, !sum_list_cons, IH. lia.
Qed.

Lemma sum_list_perm (xs ys : list Z) :
  xs ≡ₚ ys → sum_list xs = sum_list ys.
Proof.
  induction 1 as [|x xs ys _ IH|x y xs|xs ys zs _ IH1 _ IH2].
  - done.
  - by rewrite !sum_list_cons, IH.
  - rewrite !sum_list_cons. lia.
  - by rewrite IH1.
Qed.

Lemma sum_list_zero (xs : list Z) :
  Forall (λ x, x = 0) xs → sum_list xs = 0.
Proof.
  induction 1 as [|x xs -> _ IH]; [done|]. by rewrite sum_list_cons, IH.
Qed.

Lemma combined_categories_perm m m' :
  combined_categories m m' ≡ₚ
    (map_to_list m).*1 ++ elements (dom m' ∖ dom m).
Proof.
  unfold combined_categories. apply NoDup_Permutation.
  - apply NoDup_elements.
  - apply NoDup_app. split; [apply NoDup_fst_map_to_list|].
    split; [|apply NoDup_elements].
    intros k Hk. rewrite elem_of_elements, elem_of_difference.
    intros [_ Hn]. apply Hn. rewrite <-keys_to_set.
    by apply elem_of_list_to_set.
  - intros k. rewrite elem_of_app, !elem_of_elements, elem_of_union,
      elem_of_difference, <-(keys_to_set m), elem_of_list_to_set.
    destruct (decide (k ∈ (map_to_list m).*1)); tauto.
Qed.

(** The first row of the observed table adds up to the total count of the
    first group, the zeros of absent keys contributing nothing. *)
Lemma row_sum_combined m m' :
  sum_list (count m <$> combined_categories m m') = row_sum m.
Proof.
  rewrite (sum_list_perm _ _ (fmap_Permutation _ _ _
             (combined_categories_perm m m'))).
  rewrite fmap_app, sum_list_app.
  rewrite (sum_list_zero (count m <$> elements _)); last first.
  { apply Forall_fmap, Forall_forall. intros k.
    rewrite elem_of_elements, elem_of_difference.
    intros [_ Hn]. apply not_elem_of_dom in Hn.
    unfold count. simpl. by rewrite Hn. }
  rewrite Z.add_0_r. unfold row_sum, sumZ_over.
  assert (∀ kc, kc ∈ map_to_list m → m !! kc.1 = Some kc.2) as Hl.
  { intros [k c]. by rewrite elem_of_map_to_list. }
  induction (map_to_list m) as [|[k c] l IH]; [done|].
  rewrite fmap_cons, fmap_cons, sum_list_cons. cbn [foldr fst snd].
  rewrite IH by (intros; apply Hl; by right).
  pose proof (Hl (k, c) (list_elem_of_here _ _)) as Hk. simpl in Hk.
  unfold count. by rewrite Hk.
Qed.

Lemma combined_categories_comm m m' :
  combined_categories m m' = combined_categories m' m.
Proof. unfold combined_categories. f_equal. apply (comm_L (∪)). Qed.

Lemma row_sum_combined_r m m' :
  sum_list (count m' <$> combined_categories m m') = row_sum m'.
Proof. rewrite combined_categories_comm. apply row_sum_combined. Qed.

Lemma col_sums_run s m m' (cats : list K) :
  map_each (seq 0 (length cats)) (λ i,
      a <- list_getitem (count m <$> cats) i ;;
      b <- list_getitem (count m' <$> cats) i ;;
      ret (a + b)) s
  = (Ret (col_sum m m' <$> cats), s).
Proof.
  rewrite <-(fmap_seq_lookup cats
    (λ i, match cats !! i with
          | Some cat => col_sum m m' cat
          | None => 0
          end) (col_sum m m')); last first.
  { intros j x Hj. by rewrite Hj. }
  apply map_each_pure. intros i Hi.
  apply elem_of_seq in Hi as [_ Hi]. simpl in Hi.
  destruct (lookup_lt_is_Some_2 cats i Hi) as [cat Hcat].
  rewrite Hcat.
  erewrite bind_ret_run; last first.
  { apply list_getitem_run. by rewrite list_lookup_fmap, Hcat. }
  erewrite bind_ret_run; last first.
  { apply list_getitem_run. by rewrite list_lookup_fmap, Hcat. }
  done.
Qed.

Lemma expected_run s (row_sums col_sums : list Z) (total : Z) :
  total ≠ 0 →
  map_each (seq 0 (length row_sums)) (λ i,
      map_each (seq 0 (length col_sums)) (λ j,
        r <- list_getitem row_sums i ;;
        c <- list_getitem col_sums j ;;
        truediv (r * c) total)) s
  = (Ret ((λ r, (λ c, (Qc_of_Z (r * c) / Qc_of_Z total)%Qc) <$> col_sums)
          <$> row_sums), s).
Proof.
  intros Htotal.
  rewrite <-(fmap_seq_lookup row_sums
    (λ i, match row_sums !! i with
          | Some r => (λ c, (Qc_of_Z (r * c) / Qc_of_Z total)%Qc) <$> col_sums
          | None => []
          end)); last first.
  { intros j x Hj. by rewrite Hj. }
  apply map_each_pure. intros i Hi.
  apply elem_of_seq in Hi as [_ Hi]. simpl in Hi.
  destruct (lookup_lt_is_Some_2 row_sums i Hi) as [r Hr].
  rewrite Hr.
  rewrite <-(fmap_seq_lookup col_sums
    (λ j, match col_sums !! j with
          | Some c => (Qc_of_Z (r * c) / Qc_of_Z total)%Qc
          | None => 0%Qc
          end)); last first.
  { intros j x Hj. by rewrite Hj. }
  apply map_each_pure. intros j Hj.
  apply elem_of_seq in Hj as [_ Hj]. simpl in Hj.
  destruct (lookup_lt_is_Some_2 col_sums j Hj) as [c Hc].
  rewrite Hc.
  erewrite bind_ret_run by (by apply list_getitem_run).
  erewrite bind_ret_run by (by apply list_getitem_run).
  by apply truediv_run.
Qed.

(** One row of the statistic loop: the cells of row [i], read through
    their indices, add up to the sum over the categories. *)
Lemma chi2_row_run s (observed : list (list Z)) (expected : list (list Qc))
    (i : nat) (cats : list K) (o : K → Z) (e : K → Qc) (acc : Qc) :
  observed !! i = Some (o <$> cats) →
  expected !! i = Some (e <$> cats) →
  (∀ cat, cat ∈ cats → e cat ≠ 0%Qc) →
  for_each (seq 0 (length (o <$> cats))) acc (λ acc j,
      orow <- list_getitem observed i ;;
      o <- list_getitem orow j ;;
      erow <- list_getitem expected i ;;
      e <- list_getitem erow j ;;
      erow' <- list_getitem expected i ;;
      e' <- list_getitem erow' j ;;
      q <- truediv_float ((Qc_of_Z o - e) ^ 2)%Qc e' ;;
      ret (acc + q)%Qc) s
  = (Ret (acc + sumQ ((λ cat, (Qc_of_Z (o cat) - e cat) ^ 2 / e cat)
                      <$> cats))%Qc, s).
Proof.
  intros Ho He Hnz. rewrite length_fmap.
  rewrite <-(fmap_seq_lookup cats
    (λ j, match cats !! j with
          | Some cat => ((Qc_of_Z (o cat) - e cat) ^ 2 / e cat)%Qc
          | None => 0%Qc
          end)); last first.
  { intros j x Hj. by rewrite Hj. }
  apply for_each_sum. intros a j Hj.
  apply elem_of_seq in Hj as [_ Hj]. simpl in Hj.
  destruct (lookup_lt_is_Some_2 cats j Hj) as [cat Hcat].
  rewrite Hcat.
  assert (cat ∈ cats) as Hin by (by eapply list_elem_of_lookup_2).
  erewrite bind_ret_run by (by apply list_getitem_run).
  erewrite bind_ret_run; last first.
  { apply list_getitem_run. by rewrite list_lookup_fmap, Hcat. }
  erewrite bind_ret_run by (by apply list_getitem_run).
  erewrite bind_ret_run; last first.
  { apply list_getitem_run. by rewrite list_lookup_fmap, Hcat. }
  erewrite bind_ret_run by (by apply list_getitem_run).
  erewrite bind_ret_run; last first.
  { apply list_getitem_run. by rewrite list_lookup_fmap, Hcat. }
  erewrite bind_ret_run by (apply truediv_float_run; by apply Hnz).
  done.
Qed.

Lemma tell_run s (e : event) :
  tell e s = (Ret tt, State (heap s) (trace s ++ [e])).
Proof. done. Qed.

Lemma Qc_div_nonzero (x y : Qc) : x ≠ 0%Qc → y ≠ 0%Qc → (x / y)%Qc ≠ 0%Qc.
Proof.
  intros Hx Hy Hq. apply Hx.
  rewrite <-(Qcmult_div_r x y Hy), Hq. apply Qcmult_0_r.
Qed.

(** The three ways through [_perform_chi_squared_test]. *)
Lemma chi2_test_run s (c1 c2 : loc) d1 d2 :
  heap s !! c1 = Some (ODict d1) →
  heap s !! c2 = Some (ODict d2) →
  let m1 := d_items d1 in
  let m2 := d_items d2 in
  let cats := combined_categories m1 m2 in
  let k := Z.of_nat (length cats) in
  let entered := trace s ++ [Enter_chi_squared_test c1 c2] in
  (k < 1 →
     _perform_chi_squared_test scipy_stats_chi2_cdf c1 c2 s =
       (Ret (Chi2Results None None None),
        State (heap s)
          (entered ++ [Warn "RuntimeWarning" insufficient_categories_msg]))) ∧
  (1 ≤ k →
     (row_sum m1 = 0 ∨ row_sum m2 = 0 ∨
      ∃ cat, cat ∈ cats ∧ col_sum m1 m2 cat = 0) →
     _perform_chi_squared_test scipy_stats_chi2_cdf c1 c2 s =
       (Ret (Chi2Results (Some Inf) (Some (k - 1)) (Some 0%Qc)),
        State (heap s) entered)) ∧
  (1 ≤ k →
     row_sum m1 ≠ 0 → row_sum m2 ≠ 0 →
     (∀ cat, cat ∈ cats → col_sum m1 m2 cat ≠ 0) →
     row_sum m1 + row_sum m2 ≠ 0 →
     _perform_chi_squared_test scipy_stats_chi2_cdf c1 c2 s =
       (Ret (Chi2Results (Some (Fin (chi2_sum m1 m2))) (Some (k - 1))
               ((λ cdf, (1 - cdf (k - 1)%Z (chi2_sum m1 m2))%Qc)
                <$> scipy_stats_chi2_cdf)),
        State (heap s)
          (entered ++ match scipy_stats_chi2_cdf with
                      | None => [Warn "RuntimeWarning" missing_scipy_msg]
                      | Some _ => []
                      end))).
Proof.
  intros Hc1 Hc2 m1 m2 cats k entered.
  set (s1 := State (heap s) entered).
  assert (heap s1 !! c1 = Some (ODict d1)) as Hc1' by done.
  assert (heap s1 !! c2 = Some (ODict d2)) as Hc2' by done.
  split; [|split].
  - intros Hk. unfold _perform_chi_squared_test.
    rewrite (bind_ret_run _ _ _ _ _ (tell_run _ _)). fold entered s1.
    msteps. rewrite !keys_to_set. fold m1 m2.
    change (elements (dom m1 ∪ dom m2)) with cats. fold k.
    rewrite decide_True by done. done.
  - intros Hk Hdeg. unfold _perform_chi_squared_test.
    rewrite (bind_ret_run _ _ _ _ _ (tell_run _ _)). fold entered s1.
    msteps. rewrite !keys_to_set. fold m1 m2.
    change (elements (dom m1 ∪ dom m2)) with cats. fold k.
    rewrite decide_False by lia.
    erewrite bind_ret_run; last first.
    { apply (map_each_pure _ _ _ (count m1)).
      intros cat _. by apply count_or_zero_run. }
    erewrite bind_ret_run; last first.
    { apply (map_each_pure _ _ _ (count m2)).
      intros cat _. by apply count_or_zero_run. }
    rewrite (bind_ret_run _ _ _ _ _ (col_sums_run _ _ _ _)).
    pose proof (row_sum_combined m1 m2) as Hrow1.
    pose proof (row_sum_combined_r m1 m2) as Hrow2.
    fold cats in Hrow1, Hrow2. rewrite !Hrow1, !Hrow2.
    rewrite decide_True; [done|].
    destruct Hdeg as [Hr|[Hr|(cat & Hin & Hcol)]].
    + left. rewrite <-Hr. left.
    + left. rewrite <-Hr. right. left.
    + right. rewrite <-Hcol. apply list_elem_of_fmap. by exists cat.
  - intros Hk Hr1 Hr2 Hcol Htotal. unfold _perform_chi_squared_test.
    rewrite (bind_ret_run _ _ _ _ _ (tell_run _ _)). fold entered s1.
    msteps. rewrite !keys_to_set. fold m1 m2.
    change (elements (dom m1 ∪ dom m2)) with cats. fold k.
    rewrite decide_False by lia.
    erewrite bind_ret_run; last first.
    { apply (map_each_pure _ _ _ (count m1)).
      intros cat _. by apply count_or_zero_run. }
    erewrite bind_ret_run; last first.
    { apply (map_each_pure _ _ _ (count m2)).
      intros cat _. by apply count_or_zero_run. }
    rewrite (bind_ret_run _ _ _ _ _ (col_sums_run _ _ _ _)).
    pose proof (row_sum_combined m1 m2) as Hrow1.
    pose proof (row_sum_combined_r m1 m2) as Hrow2.
    fold cats in Hrow1, Hrow2. rewrite !Hrow1, !Hrow2.
    rewrite decide_False; last first.
    { intros [Hin|Hin].
      - apply elem_of_cons in Hin as [?|Hin]; [done|].
        apply elem_of_cons in Hin as [?|Hin]; [done|].
        by apply elem_of_nil in Hin.
      - apply list_elem_of_fmap in Hin as (cat & Hz & Hin).
        by apply (Hcol cat). }
    assert (sum_list [row_sum m1; row_sum m2] = row_sum m1 + row_sum m2)
      as -> by (unfold sum_list; simpl; lia).
    rewrite (bind_ret_run _ _ _ _ _ (expected_run _ _ _ _ Htotal)).
    cbn [fmap list_fmap length seq for_each].
    rewrite ?bind_bind.
    erewrite bind_ret_run by (by apply list_getitem_run).
    rewrite ?bind_bind.
    erewrite bind_ret_run; last first.
    { eapply (chi2_row_run _ _ _ 0%nat cats (count m1)
                (expected_count m1 m2 m1)); [done| |].
      - cbn. unfold expected_count. by rewrite <-list_fmap_compose.
      - intros cat Hin. unfold expected_count.
        apply Qc_div_nonzero; apply Z2Qc_nonzero; [|done].
        specialize (Hcol cat Hin). nia. }
    rewrite ?bind_bind.
    erewrite bind_ret_run by (by apply list_getitem_run).
    rewrite ?bind_bind.
    erewrite bind_ret_run; last first.
    { eapply (chi2_row_run _ _ _ 1%nat cats (count m2)
                (expected_count m1 m2 m2)); [done| |].
      - cbn. unfold expected_count. by rewrite <-list_fmap_compose.
      - intros cat Hin. unfold expected_count.
        apply Qc_div_nonzero; apply Z2Qc_nonzero; [|done].
        specialize (Hcol cat Hin). nia. }
    rewrite bind_ret_l.
    assert ((0 + sumQ ((λ cat, (Qc_of_Z (count m1 cat)
                                - expected_count m1 m2 m1 cat) ^ 2
                               / expected_count m1 m2 m1 cat) <$> cats)
             + sumQ ((λ cat, (Qc_of_Z (count m2 cat)
                              - expected_count m1 m2 m2 cat) ^ 2
                             / expected_count m1 m2 m2 cat) <$> cats))%Qc
            = chi2_sum m1 m2) as ->.
    { unfold chi2_sum, chi2_cell. fold cats. by rewrite Qcplus_0_l. }
    destruct scipy_stats_chi2_cdf as [cdf|]; [|done].
    unfold ret, s1. by rewrite app_nil_r.
Qed.

Lemma row_sum_nonneg m : counts_nonneg m → 0 ≤ row_sum m.
Proof.
  unfold counts_nonneg, row_sum, sumZ_over. rewrite map_Forall_to_list.
  induction 1 as [|[k c] l Hc _ IH]; cbn [foldr snd]; [done|].
  simpl in Hc. unfold id at 1. lia.
Qed.

Lemma row_sum_pos m :
  map_Forall (λ _ c, 0 < c) m → m ≠ ∅ → 0 < row_sum m.
Proof.
  intros Hpos Hne.
  assert (0 ≤ row_sum m) as Hnn.
  { apply row_sum_nonneg. eapply map_Forall_impl; [exact Hpos|].
    simpl. intros. lia. }
  revert Hnn. unfold row_sum, sumZ_over.
  apply map_Forall_to_list in Hpos.
  destruct (map_to_list m) as [|[k c] l] eqn:Hl.
  { by apply map_to_list_empty_iff in Hl. }
  apply Forall_cons in Hpos as [Hc Hpos]. simpl in Hc.
  assert (0 ≤ foldr (λ kc a, id kc.2 + a) 0 l) as Hrest.
  { clear Hl. induction Hpos as [|[k' c'] l' Hc' _ IH]; cbn [foldr snd];
      [done|]. simpl in Hc'. unfold id at 1. lia. }
  cbn [foldr snd]. unfold id at 1 3. lia.
Qed.

Lemma sumQ_zero (xs : list Qc) : Forall (λ x, x = 0%Qc) xs → sumQ xs = 0%Qc.
Proof.
  induction 1 as [|x xs -> _ IH]; [done|].
  cbn [sumQ foldr]. fold (sumQ xs). by rewrite IH, Qcplus_0_l.
Qed.

(** Two identical groups with positive counts: every observed count
    equals its expected count. *)
Lemma chi2_sum_identical m :
  map_Forall (λ _ c, 0 < c) m → row_sum m ≠ 0 → chi2_sum m m = 0%Qc.
Proof.
  intros Hpos Hrow.
  assert (Forall (λ x, x = 0%Qc)
            (chi2_cell m m m <$> combined_categories m m)) as Hz.
  { apply Forall_fmap, Forall_forall. intros cat Hin. simpl.
    unfold combined_categories in Hin.
    apply elem_of_elements, elem_of_union in Hin.
    assert (is_Some (m !! cat)) as [c Hc].
    { apply elem_of_dom. tauto. }
    pose proof (Hpos cat c Hc) as Hcpos. simpl in Hcpos.
    unfold chi2_cell.
    assert (expected_count m m m cat = Qc_of_Z (count m cat)) as ->.
    { unfold expected_count, col_sum, count. rewrite Hc. simpl.
      replace (row_sum m * (c + c)) with (c * (row_sum m + row_sum m))
        by lia.
      rewrite Z2Qc_inj_mul. field. apply Z2Qc_nonzero. lia. }
    unfold count. rewrite Hc. simpl.
    assert (Qc_of_Z c ≠ 0%Qc) by (apply Z2Qc_nonzero; lia).
    by field. }
  unfold chi2_sum. rewrite (sumQ_zero _ Hz). apply Qcplus_0_l.
Qed.

(** C4.  With at least one combined category, a zero row sum or a zero
    column sum makes the test return the statistic +infinity, the p-value 0
    and [df = k - 1], without raising and without warning.  With no
    category at all it warns and returns three [None]s. *)
Theorem chi_squared_degenerate s (c1 c2 : loc) d1 d2 :
  heap s !! c1 = Some (ODict d1) →
  heap s !! c2 = Some (ODict d2) →
  let m1 := d_items d1 in
  let m2 := d_items d2 in
  let cats := combined_categories m1 m2 in
  let k := Z.of_nat (length cats) in
  let entered := trace s ++ [Enter_chi_squared_test c1 c2] in
  (1 ≤ k →
     (row_sum m1 = 0 ∨ row_sum m2 = 0 ∨
      ∃ cat, cat ∈ cats ∧ col_sum m1 m2 cat = 0) →
     _perform_chi_squared_test scipy_stats_chi2_cdf c1 c2 s =
       (Ret (Chi2Results (Some Inf) (Some (k - 1)) (Some 0%Qc)),
        State (heap s) entered)) ∧
  (k < 1 →
     _perform_chi_squared_test scipy_stats_chi2_cdf c1 c2 s =
       (Ret (Chi2Results None None None),
        State (heap s)
          (entered ++ [Warn "RuntimeWarning" insufficient_categories_msg]))).
Proof.
  intros Hc1 Hc2 m1 m2 cats k entered.
  destruct (chi2_test_run s c1 c2 d1 d2 Hc1 Hc2) as (Hnone & Hdeg & _).
  split; [exact Hdeg|exact Hnone].
Qed.


(** On frequency counters the test always returns: it never raises, it
    leaves the heap as it was and only extends the trace. *)
Lemma chi2_test_total s (c1 c2 : loc) d1 d2 :
  heap s !! c1 = Some (ODict d1) →
  heap s !! c2 = Some (ODict d2) →
  counts_nonneg (d_items d1) → counts_nonneg (d_items d2) →
  ∃ r t,
    _perform_chi_squared_test scipy_stats_chi2_cdf c1 c2 s =
      (Ret r, State (heap s) (trace s ++ t)).
Proof.
  intros Hc1 Hc2 Hnn1 Hnn2.
  destruct (chi2_test_run s c1 c2 d1 d2 Hc1 Hc2) as (Hnone & Hdeg & Hrun).
  set (m1 := d_items d1) in *. set (m2 := d_items d2) in *.
  set (cats := combined_categories m1 m2) in *.
  destruct (decide (Z.of_nat (length cats) < 1)) as [Hk|Hk].
  { eexists _, _. rewrite (Hnone Hk), <-(assoc_L (++)). done. }
  destruct (decide (row_sum m1 = 0)) as [Hr1|Hr1].
  { eexists _, _. rewrite Hdeg by (lia || tauto). done. }
  destruct (decide (row_sum m2 = 0)) as [Hr2|Hr2].
  { eexists _, _. rewrite Hdeg by (lia || tauto). done. }
  destruct (decide (Exists (λ cat, col_sum m1 m2 cat = 0) cats))
    as [Hcol|Hcol].
  { apply Exists_exists in Hcol.
    eexists _, _. rewrite Hdeg by (lia || tauto). done. }
  eexists _, _. rewrite Hrun, <-(assoc_L (++)); [done|lia|done|done| |].
  - intros cat Hin Hz. apply Hcol, Exists_exists. by exists cat.
  - pose proof (row_sum_nonneg _ Hnn1). pose proof (row_sum_nonneg _ Hnn2).
    lia.
Qed.

End ChiSquared.

Section Frame.
Context {K : Type} `{Countable K}.
Variable scipy_stats_chi2_cdf : option (Z → Qc → Qc).
Implicit Types (s : state K) (l : loc).

Lemma hp_ret {A} (a : A) : heap_preserving (ret a : M (state K) A).
Proof. by intros s. Qed.

Lemma hp_raise {A} (e : exn) : heap_preserving (raise e : M (state K) A).
Proof. by intros s. Qed.

Lemma hp_bind {A B} (m : M (state K) A) (f : A → M (state K) B) :
  heap_preserving m → (∀ a, heap_preserving (f a)) →
  heap_preserving (bind m f).
Proof.
  intros Hm Hf s. unfold bind. specialize (Hm s).
  destruct (m s) as [[a|e] s']; simpl in *; [|done].
  by rewrite Hf.
Qed.

Lemma hp_for_each {A B} (xs : list A) (acc : B)
    (body : B → A → M (state K) B) :
  (∀ b x, heap_preserving (body b x)) →
  heap_preserving (for_each xs acc body).
Proof.
  intros Hbody. revert acc.
  induction xs as [|x xs IH]; intros acc; cbn [for_each].
  - apply hp_ret.
  - apply hp_bind; [apply Hbody|]. intros b. apply IH.
Qed.

Lemma hp_map_each {A B} (xs : list A) (f : A → M (state K) B) :
  (∀ x, heap_preserving (f x)) → heap_preserving (map_each xs f).
Proof.
  intros Hf. induction xs as [|x xs IH]; cbn [map_each].
  - apply hp_ret.
  - apply hp_bind; [apply Hf|]. intros y.
    apply hp_bind; [apply IH|]. intros ys. apply hp_ret.
Qed.

Lemma hp_list_getitem {A} (xs : list A) i :
  heap_preserving (list_getitem xs i : M (state K) A).
Proof. unfold list_getitem. destruct (xs !! i); [apply hp_ret|apply hp_raise]. Qed.

Lemma hp_truediv a b : heap_preserving (truediv (K:=K) a b).
Proof. unfold truediv. case_decide; [apply hp_raise|apply hp_ret]. Qed.

Lemma hp_truediv_float x y : heap_preserving (truediv_float (K:=K) x y).
Proof. unfold truediv_float. case_decide; [apply hp_raise|apply hp_ret]. Qed.

Lemma hp_tell (e : event) : heap_preserving (tell (K:=K) e).
Proof. by intros s. Qed.

Lemma hp_get_dict l : heap_preserving (get_dict (K:=K) l).
Proof.
  intros s. unfold get_dict, bind, get_heap.
  by destruct (heap s !! l) as [[d|p|c]|].
Qed.

Lemma hp_dict_keys l : heap_preserving (dict_keys (K:=K) l).
Proof.
  unfold dict_keys. apply hp_bind; [apply hp_get_dict|].
  intros d. apply hp_ret.
Qed.

(** The guarded read never takes the inserting path of a [defaultdict]. *)
Lemma hp_count_or_zero l (cat : K) : heap_preserving (count_or_zero l cat).
Proof.
  intros s. unfold count_or_zero, dict_contains, dict_getitem.
  unfold bind, get_dict, get_heap, bind at 1 2.
  destruct (heap s !! l) as [[d|p|c]|] eqn:Hl; simpl; try done.
  destruct (d_items d !! cat) as [x|] eqn:Hcat.
  - rewrite bool_decide_eq_true_2 by done. simpl. rewrite Hl. simpl.
    by rewrite Hcat.
  - rewrite bool_decide_eq_false_2; [done|]. by intros [? ?].
Qed.

(** [_perform_chi_squared_test] leaves the heap as it was on any two
    operands, whether it returns or raises. *)
Lemma hp_chi_squared_test (c1 c2 : loc) :
  heap_preserving
    (_perform_chi_squared_test (K:=K) scipy_stats_chi2_cdf c1 c2).
Proof.
  unfold _perform_chi_squared_test.
  apply hp_bind; [apply hp_tell|]. intros _.
  apply hp_bind; [apply hp_dict_keys|]. intros keys1.
  apply hp_bind; [apply hp_dict_keys|]. intros keys2.
  cbv zeta. case_decide.
  { apply hp_bind; [apply hp_tell|]. intros _. apply hp_ret. }
  apply hp_bind; [apply hp_map_each, hp_count_or_zero|]. intros cc1.
  apply hp_bind; [apply hp_map_each, hp_count_or_zero|]. intros cc2.
  apply hp_bind.
  { apply hp_map_each. intros i.
    apply hp_bind; [apply hp_list_getitem|]. intros x.
    apply hp_bind; [apply hp_list_getitem|]. intros y. apply hp_ret. }
  intros col_sums. case_decide; [apply hp_ret|].
  apply hp_bind.
  { apply hp_map_each. intros i. apply hp_map_each. intros j.
    apply hp_bind; [apply hp_list_getitem|]. intros r.
    apply hp_bind; [apply hp_list_getitem|]. intros c. apply hp_truediv. }
  intros expected. apply hp_bind.
  { apply hp_for_each. intros acc i.
    apply hp_bind; [apply hp_list_getitem|]. intros row.
    apply hp_for_each. intros acc' j.
    repeat (apply hp_bind; [apply hp_list_getitem|]; intros ?).
    apply hp_bind; [apply hp_truediv_float|]. intros q. apply hp_ret. }
  intros stat. destruct scipy_stats_chi2_cdf as [cdf|]; [apply hp_ret|].
  apply hp_bind; [apply hp_tell|]. intros _. apply hp_ret.
Qed.

End Frame.

Section Diff.
Context {K : Type} `{Countable K}.
Variable scipy_stats_chi2_cdf : option (Z → Qc → Qc).
Context {V : Type}.
Variable find_diff_of_strings_and_bools : bool → bool → V.
Variable find_diff_of_numbers : option Qc → option Qc → V.
Variable find_diff_of_lists_and_sets : list K → list K → V.
Variable find_diff_of_dicts : list (K * Z) → list (K * Z) → V.
Variable base_differences : gmap string (rvalue V).
Implicit Types (s : state K) (self other : loc) (p : profile)
  (m a b : gmap K Z).

Lemma profile_at_heap s s' self p m :
  heap s' = heap s → profile_at s self p m → profile_at s' self p m.
Proof. unfold profile_at. by intros ->. Qed.

Lemma set_statistic_run s (key : string) (v : V)
    (differences : gmap string (rvalue V)) st :
  differences !! "statistics"%string = Some (RStatistics st) →
  set_statistic key v differences s =
    (Ret (<["statistics"%string := RStatistics (<[key := v]> st)]>
            differences), s).
Proof. intros Hst. unfold set_statistic. by rewrite Hst. Qed.

Lemma dict_items_profile_run s self p m :
  profile_at s self p m →
  dict_items (_categories p) s = (Ret (map_to_list m), s).
Proof.
  intros Hp. destruct (profile_at_dict _ _ _ _ Hp) as (d & Hd & <-).
  eauto with run.
Qed.

(** What [diff] does on two profiles.  When both are categorical the
    outcome follows that of the chi-squared test: an exception of the test
    is the exception of [diff]. *)
Lemma diff_run s self other pa pb a b :
  profile_at s self pa a → profile_at s other pb b →
  ∃ bA bB,
    is_match self s = (Ret bA, s) ∧
    is_match other s = (Ret bB, s) ∧
    if bA && bB then
      match _perform_chi_squared_test scipy_stats_chi2_cdf
              (_categories pa) (_categories pb) s with
      | (Ret chi2, s') =>
          ∃ r st,
            diff scipy_stats_chi2_cdf find_diff_of_strings_and_bools
              find_diff_of_numbers find_diff_of_lists_and_sets
              find_diff_of_dicts base_differences self other s
              = (Ret r, s') ∧
            r !! "statistics"%string = Some (RStatistics st) ∧
            r !! "chi2-test"%string = Some (RChi2 chi2) ∧
            Forall (λ key, is_Some (st !! key)) categorical_only_keys
      | (Raise e, s') =>
          diff scipy_stats_chi2_cdf find_diff_of_strings_and_bools
            find_diff_of_numbers find_diff_of_lists_and_sets
            find_diff_of_dicts base_differences self other s
            = (Raise e, s')
      end
    else
      ∃ r st,
        diff scipy_stats_chi2_cdf find_diff_of_strings_and_bools
          find_diff_of_numbers find_diff_of_lists_and_sets
          find_diff_of_dicts base_differences self other s = (Ret r, s) ∧
        r !! "statistics"%string = Some (RStatistics st) ∧
        r !! "chi2-test"%string = base_differences !! "chi2-test"%string ∧
        Forall (λ key, st !! key = None) categorical_only_keys.
Proof.
  intros Hpa Hpb.
  pose proof (is_match_run _ _ _ _ Hpa) as HmA.
  pose proof (is_match_run _ _ _ _ Hpb) as HmB.
  pose proof (categories_run _ _ _ _ Hpa) as HcA.
  pose proof (categories_run _ _ _ _ Hpb) as HcB.
  pose proof (unique_ratio_run _ _ _ _ Hpa) as HuA.
  pose proof (unique_ratio_run _ _ _ _ Hpb) as HuB.
  set (bA := bool_decide _) in HmA. set (bB := bool_decide _) in HmB.
  set (urA := if decide (sample_size pa = 0) then _ else _) in HuA.
  set (urB := if decide (sample_size pb = 0) then _ else _) in HuB.
  exists bA, bB. do 2 (split; [done|]).
  unfold diff.
  rewrite (bind_ret_run _ _ _ _ _ HmA), (bind_ret_run _ _ _ _ _ HmB).
  rewrite (bind_ret_run _ _ _ _ _ HcA), (bind_ret_run _ _ _ _ _ HcB).
  rewrite (bind_ret_run _ _ _ _ _ HuA), (bind_ret_run _ _ _ _ _ HuB).
  rewrite (bind_ret_run _ _ _ _ _ HmA).
  set (st0 := list_to_map _ : gmap string V).
  assert (Forall (λ key, st0 !! key = None) categorical_only_keys) as Hst0.
  { unfold st0. repeat constructor. }
  destruct bA; cbn [andb]; last first.
  { rewrite bind_ret_l. eexists _, st0.
    split; [done|]. split; [by rewrite lookup_insert_eq|].
    split; [|done]. by rewrite !lookup_insert_ne. }
  rewrite (bind_ret_run _ _ _ _ _ HmB).
  destruct bB; last first.
  { eexists _, st0.
    split; [done|]. split; [by rewrite lookup_insert_eq|].
    split; [|done]. by rewrite !lookup_insert_ne. }
  pose proof (profile_at_self _ _ _ _ Hpa) as HsA.
  pose proof (profile_at_self _ _ _ _ Hpb) as HsB.
  msteps.
  pose proof (hp_chi_squared_test scipy_stats_chi2_cdf
                (_categories pa) (_categories pb) s) as Hheap.
  destruct (_perform_chi_squared_test _ _ _ s) as [[chi2|e] s2] eqn:Hchi2;
    simpl in Hheap; last first.
  { by rewrite (bind_raise_run _ _ _ _ _ Hchi2). }
  rewrite (bind_ret_run _ _ _ _ _ Hchi2).
  assert (profile_at s2 self pa a) as Hpa2 by (by eapply profile_at_heap).
  assert (profile_at s2 other pb b) as Hpb2 by (by eapply profile_at_heap).
  rewrite (bind_ret_run _ _ _ _ _ (categories_run _ _ _ _ Hpa2)).
  rewrite (bind_ret_run _ _ _ _ _ (categories_run _ _ _ _ Hpb2)).
  erewrite bind_ret_run; last first.
  { apply set_statistic_run.
    rewrite lookup_insert_ne by done. by rewrite lookup_insert_eq. }
  rewrite (bind_ret_run _ _ _ _ _ (gini_impurity_run _ _ _ _ Hpa2)).
  rewrite (bind_ret_run _ _ _ _ _ (gini_impurity_run _ _ _ _ Hpb2)).
  erewrite bind_ret_run; last first.
  { apply set_statistic_run. by rewrite lookup_insert_eq. }
  rewrite (bind_ret_run _ _ _ _ _ (unalikeability_run _ _ _ _ Hpa2)).
  rewrite (bind_ret_run _ _ _ _ _ (unalikeability_run _ _ _ _ Hpb2)).
  erewrite bind_ret_run; last first.
  { apply set_statistic_run. by rewrite lookup_insert_eq. }
  rewrite (bind_ret_run _ _ _ _ _
             (get_profile_run s2 _ _ (profile_at_self _ _ _ _ Hpa2))).
  rewrite (bind_ret_run _ _ _ _ _ (dict_items_profile_run _ _ _ _ Hpa2)).
  rewrite (bind_ret_run _ _ _ _ _
             (get_profile_run s2 _ _ (profile_at_self _ _ _ _ Hpb2))).
  rewrite (bind_ret_run _ _ _ _ _ (dict_items_profile_run _ _ _ _ Hpb2)).
  erewrite bind_ret_run; last first.
  { apply set_statistic_run. by rewrite lookup_insert_eq. }
  eexists _, _.
  split; [done|]. split; [by rewrite lookup_insert_eq|].
  split.
  - rewrite !lookup_insert_ne by done. by rewrite lookup_insert_eq.
  - repeat constructor.
    + rewrite !lookup_insert_ne by done. by rewrite lookup_insert_eq.
    + rewrite !lookup_insert_ne by done. by rewrite lookup_insert_eq.
    + rewrite !lookup_insert_ne by done. by rewrite lookup_insert_eq.
    + by rewrite lookup_insert_eq.
Qed.

(** C7.  The report of [diff] holds the categorical-only fields
    ("categories", "gini_impurity", "unalikeability" and
    "categorical_count" under "statistics", and "chi2-test" with the
    result of the test on the two [_categories] dicts) exactly when
    [is_match] is true on both profiles.  Otherwise these keys are absent
    and the test is not entered: the state, trace included, is the one
    before the call.  The base report is assumed not to bring a
    "chi2-test" key of its own. *)
Theorem diff_categorical_only_fields s self other pa pb a b :
  profile_at s self pa a → profile_at s other pb b →
  counts_nonneg a → counts_nonneg b →
  base_differences !! "chi2-test"%string = None →
  ∃ bA bB r s' st,
    is_match self s = (Ret bA, s) ∧
    is_match other s = (Ret bB, s) ∧
    diff scipy_stats_chi2_cdf find_diff_of_strings_and_bools
      find_diff_of_numbers find_diff_of_lists_and_sets find_diff_of_dicts
      base_differences self other s = (Ret r, s') ∧
    r !! "statistics"%string = Some (RStatistics st) ∧
    Forall (λ key, is_Some (st !! key) ↔ bA && bB = true)
      categorical_only_keys ∧
    (is_Some (r !! "chi2-test"%string) ↔ bA && bB = true) ∧
    (bA && bB = true →
       ∃ chi2,
         _perform_chi_squared_test scipy_stats_chi2_cdf
           (_categories pa) (_categories pb) s = (Ret chi2, s') ∧
         r !! "chi2-test"%string = Some (RChi2 chi2)) ∧
    (bA && bB = false →
       Forall (λ key, st !! key = None) categorical_only_keys ∧
       r !! "chi2-test"%string = None ∧
       s' = s).
Proof.
  intros Hpa Hpb Hnna Hnnb Hbase.
  destruct (diff_run _ _ _ _ _ _ _ Hpa Hpb)
    as (bA & bB & HmA & HmB & Hcase).
  exists bA, bB.
  destruct (bA && bB).
  - destruct (profile_at_dict _ _ _ _ Hpa) as (da & Hda & Hma).
    destruct (profile_at_dict _ _ _ _ Hpb) as (db & Hdb & Hmb).
    destruct (chi2_test_total scipy_stats_chi2_cdf s _ _ _ _ Hda Hdb)
      as (chi2 & t & Hchi2); [by rewrite Hma|by rewrite Hmb|].
    rewrite Hchi2 in Hcase.
    destruct Hcase as (r & st & Hdiff & Hst & Hr & Hkeys).
    eexists r, _, st. do 4 (split; [done|]).
    split; [|split; [|split]].
    + eapply Forall_impl; [exact Hkeys|]. by intros key Hkey.
    + by rewrite Hr.
    + intros _. by exists chi2.
    + done.
  - destruct Hcase as (r & st & Hdiff & Hst & Hr & Hkeys).
    rewrite Hbase in Hr.
    exists r, s, st. do 4 (split; [done|]).
    split; [|split; [|split]].
    + eapply Forall_impl; [exact Hkeys|]. intros key ->.
      split; [by intros [? ?]|done].
    + rewrite Hr. split; [by intros [? ?]|done].
    + done.
    + done.
Qed.


End Diff.

Section MergeClaims.
Context {K : Type} `{Countable K}.
Implicit Types (s : state K) (self other x : loc) (a b c : gmap K Z).

(** C2.  The merge of two frequency counters has the union of their keys,
    each key carrying its count in [a] (0 if absent) plus its count in [b]
    (0 if absent); it is commutative and associative; and it is the
    counter of the profile [__add__] builds. *)
Theorem counter_merge a b c :
  dom (add_counts a b) = dom a ∪ dom b ∧
  (∀ k, k ∈ dom a ∪ dom b →
     add_counts a b !! k = Some (count a k + count b k)) ∧
  add_counts a b = add_counts b a ∧
  add_counts (add_counts a b) c = add_counts a (add_counts b c) ∧
  (∀ s self other pa pb,
     profile_at s self pa a → profile_at s other pb b →
     ∃ l s' pm,
       __add__ self other s = (Ret l, s') ∧
       profile_at s' l pm (add_counts a b)).
Proof.
  split; [apply dom_add_counts|].
  split.
  { intros k Hk. rewrite lookup_add_counts. unfold count.
    apply elem_of_union in Hk. rewrite !elem_of_dom in Hk.
    destruct (a !! k), (b !! k); simpl; f_equal; try lia.
    destruct Hk as [[? ?]|[? ?]]; done. }
  split; [apply add_counts_comm|].
  split; [apply add_counts_assoc|].
  intros s self other pa pb Hpa Hpb.
  destruct (__add___run _ _ _ _ _ _ _ Hpa Hpb)
    as (l & s' & pm & Hadd & _ & _ & _ & _ & Hpm & _).
  by exists l, s', pm.
Qed.

(** C9.  Adding an object that is not a [CategoricalColumn] raises
    [TypeError], naming the class of the operand, and the state is the one
    before the call: nothing was allocated and nothing was changed. *)
Theorem add_type_error s self x (o : obj K) :
  heap s !! x = Some o → (∀ p, o ≠ OProfile p) →
  ∃ cn,
    class_name_of x s = (Ret cn, s) ∧
    __add__ self x s =
      (Raise (TypeError ("Unsupported operand type(s) for +: "
                         ++ "'CategoricalColumn' and '" ++ cn ++ "'")), s).
Proof.
  intros Hx Hnot.
  assert (isinstance_CategoricalColumn x s = (Ret false, s)) as Hinst.
  { unfold isinstance_CategoricalColumn, bind, get_heap. rewrite Hx.
    destruct o as [d|p|cls]; [done| |done]. by destruct (Hnot p). }
  assert (∃ cn, class_name_of x s = (Ret cn, s)) as [cn Hcn].
  { unfold class_name_of, bind, get_heap. rewrite Hx.
    destruct o as [d|p|cls]; by eexists. }
  exists cn. split; [done|].
  unfold __add__. rewrite (bind_ret_run _ _ _ _ _ Hinst). cbn [negb].
  by rewrite (bind_ret_run _ _ _ _ _ Hcn).
Qed.

End MergeClaims.

(** * The theorems at the example store *)

Lemma profile_at_a : profile_at example_state 2 profile_a xy_counts.
Proof. split; [reflexivity|]. exists true. reflexivity. Defined.

Lemma profile_at_b : profile_at example_state 4 profile_b xy_counts.
Proof. split; [reflexivity|]. exists true. reflexivity. Defined.

Lemma profile_at_w : profile_at example_state 7 profile_w wide_counts.
Proof. split; [reflexivity|]. exists true. reflexivity. Defined.

Lemma profile_at_w0 : profile_at example_state 8 profile_w0 wide_counts.
Proof. split; [reflexivity|]. exists true. reflexivity. Defined.

Lemma xy_counts_nonneg : counts_nonneg xy_counts.
Proof.
  apply map_Forall_insert_2; [lia|]. apply map_Forall_singleton. lia.
Defined.

(** Eleven categories over 55 rows are categorical (ratio 0.2); over no
    rows they are not. *)
Lemma is_match_classifier_witness :
  is_match 7 example_state = (Ret true, example_state) ∧
  is_match 8 example_state = (Ret false, example_state).
Proof.
  split.
  - destruct (is_match_classifier example_state 7 profile_w wide_counts
                profile_at_w) as (b & Hrun & _ & Hratio & _).
    rewrite Hrun. f_equal. f_equal. apply Hratio.
    + vm_compute. reflexivity.
    + vm_compute. discriminate.
    + split; [reflexivity|]. vm_compute. discriminate.
  - destruct (is_match_classifier example_state 8 profile_w0 wide_counts
                profile_at_w0) as (b & Hrun & _ & _ & Hzero).
    rewrite Hrun. f_equal. f_equal. apply Hzero.
    + vm_compute. reflexivity.
    + reflexivity.
Defined.

(** A profile that has seen no rows has [unique_ratio] 1.0, with eleven
    keys in its dict. *)
Lemma unique_ratio_default_witness :
  unique_ratio 8 example_state = (Ret 1%Qc, example_state).
Proof.
  apply (proj1 (unique_ratio_default example_state 8 profile_w0 wide_counts
                  profile_at_w0)).
  reflexivity.
Defined.

Lemma xy_counts_uniform : map_Forall (λ _ x, x = 10) xy_counts.
Proof.
  apply map_Forall_insert_2; [reflexivity|].
  apply map_Forall_singleton. reflexivity.
Defined.


(** The same profile: unalikeability 20²/4 / (20² - 20) * 2. *)
Lemma unalikeability_spec_witness :
  unalikeability 2 example_state =
    (Ret (Some (Qc_of_Z (20 ^ 2) / Qc_of_Z 4
                / Qc_of_Z (20 ^ 2 - 20) * Qc_of_Z 2)%Qc), example_state).
Proof.
  destruct (unalikeability_spec example_state 2 profile_a xy_counts
              profile_at_a) as (_ & _ & _ & _ & Hhalf).
  apply (Hhalf 10).
  - exact xy_counts_uniform.
  - vm_compute. reflexivity.
  - reflexivity.
  - vm_compute. reflexivity.
Defined.


(** A group whose only count is 0 has a zero row sum; two empty dicts have
    no category. *)
Lemma chi_squared_degenerate_witness :
  _perform_chi_squared_test None 9 1 example_state =
    (Ret (Chi2Results (Some Inf) (Some (2 - 1)) (Some 0%Qc)),
     State example_heap [Enter_chi_squared_test 9 1]) ∧
  _perform_chi_squared_test None 10 10 example_state =
    (Ret (Chi2Results None None None),
     State example_heap
       [Enter_chi_squared_test 10 10;
        Warn "RuntimeWarning" insufficient_categories_msg]).
Proof.
  split.
  - refine (proj1 (chi_squared_degenerate None example_state 9 1
                     (DictObj true {["x"%string := 0]})
                     (DictObj true xy_counts) eq_refl eq_refl) _ _).
    + vm_compute. discriminate.
    + left. vm_compute. reflexivity.
  - refine (proj2 (chi_squared_degenerate None example_state 10 10
                     (DictObj true ∅) (DictObj true ∅) eq_refl eq_refl) _).
    vm_compute. reflexivity.
Defined.

Lemma wide_counts_nonneg : counts_nonneg wide_counts.
Proof.
  apply map_Forall_to_list. vm_compute.
  repeat (constructor; [discriminate|]). constructor.
Defined.

(** Both [2] and [4] are categorical: the report has the "chi2-test" key.
    Profile [8] is not: the report of its diff with [2] has no such key and
    the state is unchanged. *)
Lemma diff_categorical_only_fields_witness :
  (∃ r s',
     diff None no_diff no_diff no_diff no_diff ∅ 2 4 example_state
       = (Ret r, s') ∧
     is_Some (r !! "chi2-test"%string)) ∧
  (∃ r,
     diff None no_diff no_diff no_diff no_diff ∅ 8 2 example_state
       = (Ret r, example_state) ∧
     r !! "chi2-test"%string = None).
Proof.
  split.
  - destruct (diff_categorical_only_fields None no_diff no_diff no_diff
                no_diff ∅ example_state 2 4 profile_a profile_b
                xy_counts xy_counts profile_at_a profile_at_b
                xy_counts_nonneg xy_counts_nonneg (lookup_empty _))
      as (bA & bB & r & s' & st & HmA & HmB & Hdiff & _ & _ & Hchi & _).
    exists r, s'. split; [exact Hdiff|]. apply Hchi.
    assert (is_match 2 example_state = (Ret true, example_state)) as HA
      by (vm_compute; reflexivity).
    assert (is_match 4 example_state = (Ret true, example_state)) as HB
      by (vm_compute; reflexivity).
    rewrite HA in HmA. rewrite HB in HmB.
    injection HmA as <-. injection HmB as <-. reflexivity.
  - destruct (diff_categorical_only_fields None no_diff no_diff no_diff
                no_diff ∅ example_state 8 2 profile_w0 profile_a
                wide_counts xy_counts profile_at_w0 profile_at_a
                wide_counts_nonneg xy_counts_nonneg (lookup_empty _))
      as (bA & bB & r & s' & st & HmA & _ & Hdiff & _ & _ & _ & _ & Hnot).
    assert (is_match 8 example_state = (Ret false, example_state)) as HA
      by (vm_compute; reflexivity).
    rewrite HA in HmA. injection HmA as <-.
    destruct (Hnot eq_refl) as (_ & Hr & ->).
    exists r. split; [exact Hdiff|exact Hr].
Defined.


(** The merge of the two example counters counts 20 for "x", and the
    profile [__add__] builds from [2] and [4] carries the merged counts. *)
Lemma counter_merge_witness :
  add_counts xy_counts xy_counts !! "x"%string = Some 20 ∧
  ∃ l s' pm,
    __add__ 2 4 example_state = (Ret l, s') ∧
    profile_at s' l pm (add_counts xy_counts xy_counts).
Proof.
  destruct (counter_merge xy_counts xy_counts ∅)
    as (_ & Hcount & _ & _ & Hadd).
  split.
  - rewrite (Hcount "x"%string); vm_compute; reflexivity.
  - exact (Hadd example_state 2%positive 4%positive profile_a profile_b
             profile_at_a profile_at_b).
Defined.

(** Adding the [int] at [5] to the profile at [2] raises [TypeError] and
    leaves the state as it was. *)
Lemma add_type_error_witness :
  __add__ 2 5 example_state =
    (Raise (TypeError
       "Unsupported operand type(s) for +: 'CategoricalColumn' and 'int'"),
     example_state).
Proof.
  destruct (add_type_error example_state 2 5 (OOther "int") eq_refl)
    as (cn & Hcn & Hadd).
  - intros p. discriminate.
  - assert (class_name_of 5 example_state = (Ret "int"%string, example_state))
      as Hint by reflexivity.
    rewrite Hint in Hcn. injection Hcn as <-. exact Hadd.
Defined.

(** * Further properties of the classifier and the diversity measures *)

Section MoreDiversity.
Context {K : Type} `{Countable K}.
Implicit Types (s : state K) (self : loc) (p : profile) (m : gmap K Z).

Lemma Z2Qc_pos (z : Z) : 0 < z → (0 < Qc_of_Z z)%Qc.
Proof. intros Hz. rewrite <-Z2Qc_inj_0. by rewrite <-Z2Qc_inj_lt. Qed.

Lemma threshold_times_five :
  (Qc_of_Z 5 * _CATEGORICAL_THRESHOLD_DEFAULT)%Qc = 1%Qc.
Proof. apply Qc_is_canon. reflexivity. Qed.

(** The ratio test in the integers. *)
Lemma ratio_le_threshold (a b : Z) :
  0 < b →
  (Qc_of_Z a / Qc_of_Z b ≤ _CATEGORICAL_THRESHOLD_DEFAULT)%Qc ↔ 5 * a ≤ b.
Proof.
  intros Hb. pose proof (Z2Qc_pos _ Hb) as Hb'.
  assert (Qc_of_Z b ≠ 0%Qc) as Hnz by (apply Z2Qc_nonzero; lia).
  assert (0 < Qc_of_Z (5 * b))%Qc as H5b by (apply Z2Qc_pos; lia).
  rewrite (Qcmult_le_mono_pos_l _ _ _ H5b).
  assert (Qc_of_Z (5 * b) * (Qc_of_Z a / Qc_of_Z b) = Qc_of_Z (5 * a))%Qc
    as ->.
  { rewrite !Z2Qc_inj_mul. by field. }
  assert (Qc_of_Z (5 * b) * _CATEGORICAL_THRESHOLD_DEFAULT = Qc_of_Z b)%Qc
    as ->.
  { rewrite Z2Qc_inj_mul, (Qcmult_comm (Qc_of_Z 5)), <-Qcmult_assoc,
      threshold_times_five. apply Qcmult_1_r. }
  by rewrite <-Z2Qc_inj_le.
Qed.

(** X1.  On a profile whose sample size is non-negative, [is_match] is
    decided by integers alone: it is true exactly when there are at most
    10 distinct keys or five times the number of keys is at most the
    sample size. *)
Theorem is_match_integer_test s self p m :
  profile_at s self p m → 0 ≤ sample_size p →
  is_match self s =
    (Ret (bool_decide (unique_count m ≤ 10
                       ∨ 5 * unique_count m ≤ sample_size p)), s).
Proof.
  intros Hp Hnn. rewrite (is_match_run _ _ _ _ Hp). do 2 f_equal.
  unfold _MAXIMUM_UNIQUE_VALUES_TO_CLASSIFY_AS_CATEGORICAL.
  apply bool_decide_ext.
  destruct (decide (sample_size p = 0)) as [Hz|Hnz].
  - rewrite Hz. split; [intros [?|[? _]]; [by left|done]|].
    intros [?|?]; [by left|]. left. unfold unique_count in *. lia.
  - assert (0 < sample_size p) as Hpos by lia.
    rewrite (ratio_le_threshold _ _ Hpos). tauto.
Qed.




End MoreDiversity.

(** * Further properties of the chi-squared test *)

Section MoreChiSquared.
Context {K : Type} `{Countable K}.
Variable scipy_stats_chi2_cdf : option (Z → Qc → Qc).
Implicit Types (s : state K) (d : dictobj K) (m : gmap K Z).




(** When the two row sums cancel, the first expected count divides by
    zero. *)
Lemma expected_raises s (row_sums col_sums : list Z) :
  row_sums ≠ [] → col_sums ≠ [] →
  map_each (seq 0 (length row_sums)) (λ i,
      map_each (seq 0 (length col_sums)) (λ j,
        r <- list_getitem row_sums i ;;
        c <- list_getitem col_sums j ;;
        truediv (r * c) 0)) s
  = (Raise ZeroDivisionError, s).
Proof.
  destruct row_sums as [|r rs]; [done|].
  destruct col_sums as [|c cs]; [done|]. intros _ _.
  cbn [length seq map_each]. rewrite ?bind_bind.
  erewrite bind_ret_run by (by apply list_getitem_run).
  rewrite ?bind_bind.
  erewrite bind_ret_run by (by apply list_getitem_run).
  rewrite ?bind_bind.
  erewrite bind_raise_run; [done|].
  unfold truediv. by rewrite decide_True.
Qed.

(** The four ways through the test on two dict objects with arbitrary
    integer counts. *)
Lemma chi2_outcome s (c1 c2 : loc) d1 d2 :
  heap s !! c1 = Some (ODict d1) →
  heap s !! c2 = Some (ODict d2) →
  let m1 := d_items d1 in
  let m2 := d_items d2 in
  let cats := combined_categories m1 m2 in
  let k := Z.of_nat (length cats) in
  (_perform_chi_squared_test scipy_stats_chi2_cdf c1 c2 s).1 =
    if decide (k < 1) then Ret (Chi2Results None None None)
    else if decide (row_sum m1 = 0 ∨ row_sum m2 = 0 ∨
                    Exists (λ cat, col_sum m1 m2 cat = 0) cats)
    then Ret (Chi2Results (Some Inf) (Some (k - 1)) (Some 0%Qc))
    else if decide (row_sum m1 + row_sum m2 = 0)
    then Raise ZeroDivisionError
    else Ret (Chi2Results (Some (Fin (chi2_sum m1 m2))) (Some (k - 1))
                ((λ cdf, (1 - cdf (k - 1)%Z (chi2_sum m1 m2))%Qc)
                 <$> scipy_stats_chi2_cdf)).
Proof.
  intros Hc1 Hc2 m1 m2 cats k.
  destruct (chi2_test_run scipy_stats_chi2_cdf s c1 c2 d1 d2 Hc1 Hc2)
    as (Hnone & Hdeg & Hrun).
  fold m1 m2 cats k in Hnone, Hdeg, Hrun.
  destruct (decide (k < 1)) as [Hk|Hk]; [by rewrite Hnone|].
  destruct (decide (_ ∨ _)) as [Hd|Hd].
  { rewrite Hdeg; [done|lia|]. rewrite Exists_exists in Hd. tauto. }
  assert (row_sum m1 ≠ 0) as Hr1 by tauto.
  assert (row_sum m2 ≠ 0) as Hr2 by tauto.
  assert (∀ cat, cat ∈ cats → col_sum m1 m2 cat ≠ 0) as Hcol.
  { intros cat Hin Hz. apply Hd. right. right.
    apply Exists_exists. by exists cat. }
  destruct (decide (row_sum m1 + row_sum m2 = 0)) as [Ht|Ht];
    [|by rewrite Hrun by (done || lia)].
  clear Hnone Hdeg Hrun.
  set (s1 := State (heap s) (trace s ++ [Enter_chi_squared_test c1 c2])).
  assert (heap s1 !! c1 = Some (ODict d1)) as Hc1' by done.
  assert (heap s1 !! c2 = Some (ODict d2)) as Hc2' by done.
  unfold _perform_chi_squared_test.
  rewrite (bind_ret_run _ _ _ _ _ (tell_run _ _)). fold s1.
  msteps. rewrite !keys_to_set. fold m1 m2.
  change (elements (dom m1 ∪ dom m2)) with cats. fold k.
  rewrite decide_False by lia.
  erewrite bind_ret_run; last first.
  { apply (map_each_pure _ _ _ (count m1)).
    intros cat _. by apply count_or_zero_run. }
  erewrite bind_ret_run; last first.
  { apply (map_each_pure _ _ _ (count m2)).
    intros cat _. by apply count_or_zero_run. }
  rewrite (bind_ret_run _ _ _ _ _ (col_sums_run _ _ _ _)).
  pose proof (row_sum_combined m1 m2) as Hrow1.
  pose proof (row_sum_combined_r m1 m2) as Hrow2.
  fold cats in Hrow1, Hrow2. rewrite !Hrow1, !Hrow2.
  rewrite decide_False; last first.
  { intros [Hin|Hin].
    - apply elem_of_cons in Hin as [?|Hin]; [done|].
      apply elem_of_cons in Hin as [?|Hin]; [done|].
      by apply elem_of_nil in Hin.
    - apply list_elem_of_fmap in Hin as (cat & Hz & Hin).
      by apply (Hcol cat). }
  assert (sum_list [row_sum m1; row_sum m2] = 0) as ->
    by (unfold sum_list; simpl; lia).
  erewrite bind_raise_run; [done|].
  apply expected_raises; [done|].
  destruct cats as [|cat cats']; [simpl in k; lia|done].
Qed.


Lemma combined_categories_empty m m' :
  Z.of_nat (length (combined_categories m m')) < 1 ↔ m = ∅ ∧ m' = ∅.
Proof.
  unfold combined_categories. split.
  - intros Hk.
    assert (elements (dom m ∪ dom m') = []) as Hnil.
    { destruct (elements _); [done|simpl in Hk; lia]. }
    apply elements_empty_inv, leibniz_equiv in Hnil.
    apply empty_union_L in Hnil as [H1 H2].
    by apply dom_empty_iff_L in H1, H2.
  - intros [-> ->].
    rewrite dom_empty_L, (left_id_L ∅ (∪)), elements_empty. simpl. lia.
Qed.


(** X9.  The guard against zero sums does not cover counts of mixed sign:
    if no row sum and no column sum is zero but the two row sums cancel,
    the grand total is zero and the test raises [ZeroDivisionError] while
    computing the first expected count.  The heap is unchanged. *)
Theorem chi_squared_cancelling_rows s (c1 c2 : loc) d1 d2 :
  heap s !! c1 = Some (ODict d1) →
  heap s !! c2 = Some (ODict d2) →
  let m1 := d_items d1 in
  let m2 := d_items d2 in
  row_sum m1 ≠ 0 → row_sum m2 ≠ 0 →
  (∀ cat, cat ∈ combined_categories m1 m2 → col_sum m1 m2 cat ≠ 0) →
  row_sum m1 + row_sum m2 = 0 →
  ∃ s',
    _perform_chi_squared_test scipy_stats_chi2_cdf c1 c2 s
      = (Raise ZeroDivisionError, s') ∧
    heap s' = heap s.
Proof.
  intros Hc1 Hc2 m1 m2 Hr1 Hr2 Hcol Ht.
  pose proof (chi2_outcome s c1 c2 d1 d2 Hc1 Hc2) as Hout.
  pose proof (hp_chi_squared_test scipy_stats_chi2_cdf c1 c2 s) as Hheap.
  destruct (_perform_chi_squared_test _ c1 c2 s) as [o s']. simpl in *.
  unfold m1, m2 in *. clear m1 m2.
  exists s'. split; [|done]. f_equal.
  rewrite decide_False in Hout; last first.
  { rewrite combined_categories_empty. intros [Hm1 _].
    apply Hr1. by rewrite Hm1. }
  rewrite decide_False in Hout; last first.
  { rewrite Exists_exists. intros [?|[?|(cat & Hin & Hz)]]; [done|done|].
    by apply (Hcol cat). }
  by rewrite decide_True in Hout.
Qed.

Lemma Qc_square_nonneg (q : Qc) : (0 ≤ q ^ 2)%Qc.
Proof.
  assert (q ^ 2 = q * q)%Qc as ->.
  { cbn [Qcpower]. by rewrite Qcmult_1_r. }
  destruct (Qclt_le_dec q 0) as [Hneg|Hpos].
  - assert (q * q = (- q) * (- q))%Qc as -> by ring.
    assert (0 ≤ - q)%Qc as Hq.
    { apply Qclt_le_weak in Hneg.
      apply (Qcplus_le_mono_r _ _ q).
      assert (- q + q = 0)%Qc as -> by ring. by rewrite Qcplus_0_l. }
    rewrite <-(Qcmult_0_l (- q)). by apply Qcmult_le_mono_nonneg_r.
  - rewrite <-(Qcmult_0_l q). by apply Qcmult_le_mono_nonneg_r.
Qed.

Lemma Qc_div_nonneg (x y : Qc) : (0 ≤ x → 0 < y → 0 ≤ x / y)%Qc.
Proof.
  intros Hx Hy. unfold Qcdiv. rewrite <-(Qcmult_0_l (/ y)).
  apply Qcmult_le_mono_nonneg_r; [|done].
  by apply Qclt_le_weak, Qcinv_pos.
Qed.

Lemma sumQ_nonneg (xs : list Qc) :
  Forall (λ x, (0 ≤ x)%Qc) xs → (0 ≤ sumQ xs)%Qc.
Proof.
  induction 1 as [|x xs Hx _ IH]; [done|].
  cbn [sumQ foldr]. fold (sumQ xs). by apply Qcplus_nonneg_nonneg.
Qed.

(** X5.  On two frequency counters without a zero row or column sum, the
    statistic the test returns is a finite, non-negative number. *)
Theorem chi_squared_statistic_nonneg s (c1 c2 : loc) d1 d2 :
  heap s !! c1 = Some (ODict d1) →
  heap s !! c2 = Some (ODict d2) →
  let m1 := d_items d1 in
  let m2 := d_items d2 in
  counts_nonneg m1 → counts_nonneg m2 →
  row_sum m1 ≠ 0 → row_sum m2 ≠ 0 →
  (∀ cat, cat ∈ combined_categories m1 m2 → col_sum m1 m2 cat ≠ 0) →
  ∃ r s' x,
    _perform_chi_squared_test scipy_stats_chi2_cdf c1 c2 s = (Ret r, s') ∧
    res_chi2_statistic r = Some (Fin x) ∧ (0 ≤ x)%Qc.
Proof.
  intros Hc1 Hc2 m1 m2 Hnn1 Hnn2 Hr1 Hr2 Hcol.
  pose proof (row_sum_nonneg _ Hnn1) as Hp1.
  pose proof (row_sum_nonneg _ Hnn2) as Hp2.
  destruct (chi2_test_run scipy_stats_chi2_cdf s c1 c2 d1 d2 Hc1 Hc2)
    as (_ & _ & Hrun).
  fold m1 m2 in Hrun.
  assert (1 ≤ Z.of_nat (length (combined_categories m1 m2))) as Hk.
  { destruct (decide (Z.of_nat (length (combined_categories m1 m2)) < 1))
      as [Hlt|]; [|lia].
    apply combined_categories_empty in Hlt as [Hm1 _].
    destruct Hr1. unfold m1 in *. by rewrite Hm1. }
  rewrite Hrun by (done || lia).
  eexists _, _, _. split; [done|]. split; [done|].
  assert (∀ row cat, 0 ≤ row_sum row → row_sum row ≠ 0 →
            cat ∈ combined_categories m1 m2 →
            (0 ≤ chi2_cell m1 m2 row cat)%Qc) as Hcell.
  { intros row cat Hrow Hrow' Hin. unfold chi2_cell.
    apply Qc_div_nonneg; [apply Qc_square_nonneg|].
    unfold expected_count.
    assert (0 ≤ col_sum m1 m2 cat) as Hc.
    { unfold col_sum, count.
      destruct (m1 !! cat) as [x|] eqn:H1;
        destruct (m2 !! cat) as [y|] eqn:H2; simpl; try lia.
      - pose proof (Hnn1 _ _ H1). pose proof (Hnn2 _ _ H2).
        simpl in *. lia.
      - pose proof (Hnn1 _ _ H1). simpl in *. lia.
      - pose proof (Hnn2 _ _ H2). simpl in *. lia. }
    specialize (Hcol cat Hin).
    assert (0 < Qc_of_Z (row_sum row * col_sum m1 m2 cat))%Qc
      by (apply Z2Qc_pos; nia).
    assert (0 < Qc_of_Z (row_sum m1 + row_sum m2))%Qc
      by (apply Z2Qc_pos; lia).
    unfold Qcdiv. apply Qcmult_pos_pos; [done|by apply Qcinv_pos]. }
  unfold chi2_sum.
  apply Qcplus_nonneg_nonneg; apply sumQ_nonneg, Forall_fmap, Forall_forall;
    intros cat Hin; by apply Hcell.
Qed.

(** X8.  Whenever the test returns, the trace gains the entry into the
    test followed by exactly one [RuntimeWarning] if the results carry no
    p-value (no category at all, or no statistics backend), and by nothing
    otherwise. *)
Theorem chi_squared_warns_iff_no_p_value s (c1 c2 : loc) d1 d2 r s' :
  heap s !! c1 = Some (ODict d1) →
  heap s !! c2 = Some (ODict d2) →
  _perform_chi_squared_test scipy_stats_chi2_cdf c1 c2 s = (Ret r, s') →
  ∃ w,
    trace s' = trace s ++ Enter_chi_squared_test c1 c2 :: w ∧
    (res_p_value r = None → ∃ msg, w = [Warn "RuntimeWarning" msg]) ∧
    (is_Some (res_p_value r) → w = []).
Proof.
  intros Hc1 Hc2 Hret.
  pose proof (chi2_outcome s c1 c2 d1 d2 Hc1 Hc2) as Hout.
  destruct (chi2_test_run scipy_stats_chi2_cdf s c1 c2 d1 d2 Hc1 Hc2)
    as (Hnone & Hdeg & Hrun).
  cbv zeta in Hout, Hnone, Hdeg, Hrun.
  destruct (decide (_ < 1)) as [Hk|Hk].
  { rewrite (Hnone Hk) in Hret. injection Hret as <- <-.
    eexists. cbn [trace]. rewrite <-(assoc_L (++)). split; [done|].
    split; [by eexists|]. by intros [? ?]. }
  destruct (decide (_ ∨ _)) as [Hd|Hd].
  { rewrite Hdeg in Hret; [|lia|rewrite Exists_exists in Hd; tauto].
    injection Hret as <- <-. exists []. split; [done|].
    split; [done|]. done. }
  destruct (decide (_ + _ = 0)) as [Ht|Ht].
  { rewrite Hret in Hout. done. }
  rewrite Hrun in Hret; [|lia|tauto|tauto| |done]; last first.
  { intros cat Hin Hz. apply Hd. right. right.
    apply Exists_exists. by exists cat. }
  injection Hret as <- <-. cbn [trace res_p_value].
  rewrite <-(assoc_L (++)).
  destruct scipy_stats_chi2_cdf as [cdf|]; eexists; (split; [done|]).
  - split; [done|]. done.
  - split; [by eexists|]. by intros [? ?].
Qed.






End MoreChiSquared.

(** * The [profile] property *)

Section MoreReport.
Context {K : Type} `{Countable K}.
Implicit Types (s : state K) (self : loc) (p : profile) (m : gmap K Z).

Lemma by_count_desc_total : Total (by_count_desc (K:=K)).
Proof. intros x y. unfold by_count_desc. lia. Qed.

Lemma by_count_desc_trans : Transitive (by_count_desc (K:=K)).
Proof. intros x y z. unfold by_count_desc. lia. Qed.

(** The sort is a rearrangement of the items in which no count is
    followed by a larger one. *)
Lemma sorted_items_desc_spec (items : list (K * Z)) :
  StronglySorted by_count_desc (sorted_items_desc items) ∧
  sorted_items_desc items ≡ₚ items.
Proof.
  unfold sorted_items_desc. split.
  - apply (Sorted_StronglySorted _ (Transitive0 := by_count_desc_trans)).
    apply (Sorted_merge_sort _ (Total0 := by_count_desc_total)).
  - apply merge_sort_Permutation.
Qed.

Lemma slice_to_take {A} (k : option Z) (xs : list A) :
  ∃ n, slice_to k xs = take n xs ∧
       (k = None → n = length xs) ∧
       (∀ z, k = Some z → 0 ≤ z → n = Z.to_nat z).
Proof.
  destruct k as [z|]; simpl.
  - case_decide.
    + exists (Z.to_nat z). split; [done|]. split; [done|].
      intros z' Hz' _. by injection Hz' as ->.
    + eexists. split; [done|]. split; [done|].
      intros z' Hz' Hnn. injection Hz' as ->. lia.
  - exists (length xs). split; [by rewrite firstn_all|]. by split.
Qed.

Lemma profile_property_run s self p m :
  profile_at s self p m →
  ∃ b,
    is_match self s = (Ret b, s) ∧
    profile_property self s =
      (Ret (ProfileReport b
              (let base :=
                 list_to_map
                   [("unique_count"%string, PInt (unique_count m));
                    ("unique_ratio"%string,
                     PFloat (if decide (sample_size p = 0) then 1%Qc
                             else (Qc_of_Z (unique_count m)
                                   / Qc_of_Z (sample_size p))%Qc))] in
               if b then
                 <["categorical_count"%string :=
                     PDict (slice_to (_top_k_categories p)
                              (sorted_items_desc (map_to_list m)))]>
                 (<["unalikeability"%string :=
                      pvalue_of_option
                        (if decide (sample_size p = 0) then None
                         else if decide (sample_size p = 1) then Some 0%Qc
                         else Some (Qc_of_Z (sumZ_over m
                                      (λ c, (sample_size p - c) * c)%Z)
                                    / Qc_of_Z (sample_size p ^ 2
                                               - sample_size p))%Qc)]>
                 (<["gini_impurity"%string :=
                      pvalue_of_option
                        (if decide (sample_size p = 0) then None
                         else Some (sum_over m (gini_term (sample_size p))))]>
                 (<["categories"%string := PList ((map_to_list m).*1)]>
                    base)))
               else base)
              (times p)), s).
Proof.
  intros Hp. pose proof (profile_at_self _ _ _ _ Hp) as Hself.
  destruct (profile_at_dict _ _ _ _ Hp) as (d & Hd & Hm).
  pose proof (is_match_run _ _ _ _ Hp) as Hmatch.
  set (b := bool_decide _) in Hmatch. exists b. split; [done|].
  unfold profile_property.
  rewrite (bind_ret_run _ _ _ _ _ Hmatch).
  rewrite (bind_ret_run _ _ _ _ _ (categories_run _ _ _ _ Hp)).
  rewrite (bind_ret_run _ _ _ _ _ (unique_ratio_run _ _ _ _ Hp)).
  mstep. rewrite (bind_ret_run _ _ _ _ _ Hmatch). rewrite length_keys.
  destruct b; [|done].
  rewrite (bind_ret_run _ _ _ _ _ (categories_run _ _ _ _ Hp)).
  rewrite (bind_ret_run _ _ _ _ _ (gini_impurity_run _ _ _ _ Hp)).
  rewrite (bind_ret_run _ _ _ _ _ (unalikeability_run _ _ _ _ Hp)).
  msteps. by rewrite Hm.
Qed.

(** X10.  The report of the [profile] property: reading it changes
    nothing; its "categorical" flag is [is_match]; "unique_count" is the
    number of distinct keys; the four categorical-only statistics are
    present exactly when the profile is categorical; "times" is the
    profile's. *)
Theorem profile_report_keys s self p m :
  profile_at s self p m →
  ∃ b r,
    is_match self s = (Ret b, s) ∧
    profile_property self s = (Ret r, s) ∧
    categorical r = b ∧
    statistics r !! "unique_count"%string = Some (PInt (unique_count m)) ∧
    is_Some (statistics r !! "unique_ratio"%string) ∧
    Forall (λ key, is_Some (statistics r !! key) ↔ b = true)
      categorical_only_keys ∧
    report_times r = times p.
Proof.
  intros Hp. destruct (profile_property_run _ _ _ _ Hp) as (b & Hb & Hr).
  exists b. eexists. split; [done|]. split; [exact Hr|].
  cbn [categorical statistics report_times]. split; [done|].
  destruct b; cbv zeta.
  - split; [by rewrite !lookup_insert_ne|].
    split; [rewrite !lookup_insert_ne by done; by eexists|].
    split; [|done].
    unfold categorical_only_keys. rewrite !Forall_cons, Forall_nil.
    split; [|split; [|split; [|split; [|done]]]];
      (rewrite ?lookup_insert_ne by done; rewrite lookup_insert_eq;
       split; [done|by eexists]).
  - split; [done|]. split; [by eexists|]. split; [|done].
    unfold categorical_only_keys. rewrite !Forall_cons, Forall_nil.
    split; [|split; [|split; [|split; [|done]]]];
      (split; [by intros [? ?]|done]).
Qed.

(** X11.  For a categorical profile, "categorical_count" in the report
    lists items of the dict without repetition and in descending order of
    count; with [top_k_categories = None] it lists them all; with a
    non-negative [top_k_categories = k] it lists [min k (number of keys)]
    of them; and no item left out has a larger count than a listed one. *)
Theorem profile_report_top_k s self p m :
  profile_at s self p m →
  is_match self s = (Ret true, s) →
  ∃ r l,
    profile_property self s = (Ret r, s) ∧
    statistics r !! "categorical_count"%string = Some (PDict l) ∧
    StronglySorted by_count_desc l ∧
    NoDup l.*1 ∧
    (∀ cat c, (cat, c) ∈ l → m !! cat = Some c) ∧
    (_top_k_categories p = None → l ≡ₚ map_to_list m) ∧
    (∀ k, _top_k_categories p = Some k → 0 ≤ k →
       length l = Nat.min (Z.to_nat k) (size m)) ∧
    (∀ x y, x ∈ l → y ∈ map_to_list m → y ∉ l → y.2 ≤ x.2).
Proof.
  intros Hp Hmatch.
  destruct (profile_property_run _ _ _ _ Hp) as (b & Hb & Hr).
  rewrite Hmatch in Hb. injection Hb as <-.
  destruct (sorted_items_desc_spec (map_to_list m)) as [Hsorted Hperm].
  destruct (slice_to_take (_top_k_categories p)
              (sorted_items_desc (map_to_list m)))
    as (n & Hslice & Hnone & Hsome).
  set (sorted := sorted_items_desc (map_to_list m)) in *.
  eexists _, (take n sorted). split; [exact Hr|].
  cbn [statistics]. cbv zeta. rewrite lookup_insert_eq, Hslice.
  split; [done|].
  rewrite <-(take_drop n sorted) in Hsorted.
  apply StronglySorted_app in Hsorted as (Hcross & Hl & _).
  assert (take n sorted ⊆+ map_to_list m) as Hsub.
  { rewrite <-Hperm. apply submseteq_take. }
  split; [done|]. split.
  { assert (NoDup sorted.*1) as Hnd.
    { rewrite Hperm. apply NoDup_fst_map_to_list. }
    rewrite <-(take_drop n sorted), fmap_app in Hnd.
    by apply NoDup_app in Hnd as [? _]. }
  split.
  { intros cat c Hin. apply elem_of_map_to_list.
    eapply elem_of_submseteq; [exact Hin|done]. }
  split.
  { intros Hk. rewrite (Hnone Hk), firstn_all. done. }
  split.
  { intros k Hk Hk0. rewrite (Hsome k Hk Hk0), length_take.
    by rewrite Hperm, length_map_to_list. }
  intros x y Hx Hy Hny.
  assert (y ∈ sorted) as Hys by (by rewrite Hperm).
  rewrite <-(take_drop n sorted) in Hys.
  apply elem_of_app in Hys as [?|Hys]; [done|].
  by apply (Hcross x y).
Qed.

End MoreReport.

(** * Construction, merge and update *)

(** One step of a computation, the head being run by the given tactic. *)
Tactic Notation "mrun" "by" tactic3(tac) :=
  rewrite ?bind_bind; erewrite bind_ret_run by tac.

Section Lifecycle.
Context {K : Type} `{Countable K}.
Implicit Types (s : state K) (self other l : loc) (p : profile)
  (m a b : gmap K Z).

Lemma count_add_counts a b (cat : K) :
  count (add_counts a b) cat = count a cat + count b cat.
Proof.
  unfold count. rewrite lookup_add_counts.
  destruct (a !! cat), (b !! cat); simpl; lia.
Qed.

Lemma combined_categories_add_counts a b :
  combined_categories (add_counts a b) (add_counts a b)
  = combined_categories a b.
Proof.
  unfold combined_categories. rewrite dom_add_counts. f_equal.
  apply (idemp_L (∪)).
Qed.

Lemma sum_list_add {A} (f g : A → Z) (l : list A) :
  sum_list ((λ x, f x + g x) <$> l) = sum_list (f <$> l) + sum_list (g <$> l).
Proof.
  induction l as [|x l IH]; [done|].
  rewrite !fmap_cons, !sum_list_cons, IH. lia.
Qed.

(** The total count of a merge is the sum of the two total counts. *)
Lemma row_sum_add_counts a b :
  row_sum (add_counts a b) = row_sum a + row_sum b.
Proof.
  rewrite <-(row_sum_combined (add_counts a b) (add_counts a b)).
  rewrite combined_categories_add_counts.
  rewrite <-(row_sum_combined a b), <-(row_sum_combined_r a b).
  rewrite <-sum_list_add. f_equal. apply list_fmap_ext.
  intros i cat _. apply count_add_counts.
Qed.

Lemma add_counts_positive a b :
  map_Forall (λ _ c, 0 < c) a → map_Forall (λ _ c, 0 < c) b →
  map_Forall (λ _ c, 0 < c) (add_counts a b).
Proof.
  intros Ha Hb cat c. rewrite lookup_add_counts.
  destruct (a !! cat) as [x|] eqn:Hx; destruct (b !! cat) as [y|] eqn:Hy;
    intros [= <-]; simpl.
  - pose proof (Ha _ _ Hx). pose proof (Hb _ _ Hy). simpl in *. lia.
  - by apply (Ha _ _ Hx).
  - by apply (Hb _ _ Hy).
Qed.

Lemma value_counts_cons (v : K) (vs : list K) :
  value_counts (v :: vs) = add_counts {[v := 1]} (value_counts vs).
Proof.
  cbn [value_counts foldr]. fold (value_counts vs).
  apply map_eq. intros cat. rewrite lookup_add_counts.
  destruct (decide (v = cat)) as [->|Hne].
  - rewrite lookup_insert_eq, lookup_singleton_eq.
    destruct (value_counts vs !! cat); simpl; f_equal; lia.
  - rewrite lookup_insert_ne, lookup_singleton_ne by done.
    by destruct (value_counts vs !! cat).
Qed.

Lemma row_sum_singleton (v : K) (c : Z) : row_sum {[v := c]} = c.
Proof.
  unfold row_sum, sumZ_over. rewrite map_to_list_singleton. simpl.
  unfold id. lia.
Qed.

(** The counts of a series add up to its length, each value is counted as
    often as it occurs, and no count is zero. *)
Lemma value_counts_spec (vs : list K) :
  row_sum (value_counts vs) = Z.of_nat (length vs) ∧
  map_Forall (λ _ c, 0 < c) (value_counts vs) ∧
  ∀ v, count (value_counts vs) v
       = Z.of_nat (length (filter (λ x, x = v) vs)).
Proof.
  induction vs as [|x vs (IHsum & IHpos & IHcount)].
  - split; [done|]. split; [apply map_Forall_empty|]. done.
  - rewrite value_counts_cons. split; [|split].
    + rewrite row_sum_add_counts, row_sum_singleton, IHsum.
      cbn [length]. lia.
    + apply add_counts_positive; [|done].
      apply map_Forall_singleton. lia.
    + intros v. rewrite count_add_counts, IHcount, filter_cons.
      unfold count. destruct (decide (x = v)) as [->|Hne].
      * rewrite lookup_singleton_eq. cbn [length]. simpl default. lia.
      * rewrite lookup_singleton_ne by done. simpl. lia.
Qed.

(** Reading [categories] changes nothing and returns each key of the
    dict exactly once: a value is listed if and only if it is a key, and
    the length of the list is the number of keys. *)
Theorem categories_are_the_keys s self p m :
  profile_at s self p m →
  ∃ cats,
    categories self s = (Ret cats, s) ∧
    NoDup cats ∧
    Z.of_nat (length cats) = unique_count m ∧
    ∀ cat, cat ∈ cats ↔ is_Some (m !! cat).
Proof.
  intros Hp. eexists. split; [by apply (categories_run _ _ _ _ Hp)|].
  split; [apply NoDup_fst_map_to_list|]. split; [apply length_keys|].
  intros cat. rewrite <-elem_of_dom, <-keys_to_set.
  by rewrite elem_of_list_to_set.
Qed.

Lemma insert_fresh_lookup (h : gmap loc (obj K)) (o o' : obj K) l :
  h !! l = Some o → <[fresh (dom h) := o']> h !! l = Some o.
Proof.
  intros Hl. rewrite lookup_insert_ne; [done|].
  apply not_eq_sym, fresh_lookup_ne. by eexists.
Qed.

(** The state [__add__] ends in, written out. *)
Lemma __add___explicit h t self other pa pb da a db b :
  h !! self = Some (OProfile pa) →
  h !! _categories pa = Some (ODict (DictObj da a)) →
  h !! other = Some (OProfile pb) →
  h !! _categories pb = Some (ODict (DictObj db b)) →
  let l1 := fresh (dom h) in
  let h1 := <[l1 := ODict (DictObj true ∅)]> h in
  let l2 := fresh (dom h1) in
  let h2 := <[l2 := OProfile (Profile None 0 ∅ l1 None)]> h1 in
  let l3 := fresh (dom h2) in
  let h3 := <[l3 := ODict (DictObj da (add_counts a b))]> h2 in
  let pm := Profile None (sample_size pa + sample_size pb)
              (union_with (λ x y, Some (x + y)%Qc) (times pa) (times pb))
              l3 None in
  __add__ self other (State h t) =
    (Ret l2, State (<[l2 := OProfile pm]>
                      (<[l2 := OProfile (Profile None 0 ∅ l3 None)]> h3)) t).
Proof.
  intros Hself Hda Hother Hdb l1 h1 l2 h2 l3 h3 pm.
  assert (l2 ≠ self ∧ l2 ≠ other) as [Hns Hno].
  { pose proof (fresh_lookup_None h1) as Hf. fold l2 in Hf.
    split; intros Heq; rewrite Heq in Hf; unfold h1, l1 in Hf;
      [rewrite (insert_fresh_lookup h _ _ _ Hself) in Hf
      |rewrite (insert_fresh_lookup h _ _ _ Hother) in Hf]; done. }
  unfold __add__.
  erewrite bind_ret_run by (by eapply (isinstance_profile_run (State h t))).
  cbn [negb]. unfold __init__.
  rewrite bind_bind. erewrite bind_ret_run by apply alloc_run.
  erewrite bind_ret_run by apply alloc_run.
  cbn [heap trace]. fold l1 h1 l2 h2.
  erewrite bind_ret_run; last first.
  { apply get_profile_run. cbn [heap].
    by apply insert_fresh_lookup, insert_fresh_lookup. }
  erewrite bind_ret_run; last first.
  { apply get_profile_run. cbn [heap].
    by apply insert_fresh_lookup, insert_fresh_lookup. }
  unfold add_nested_dictionaries. rewrite bind_bind.
  erewrite bind_ret_run; last first.
  { apply get_dict_run. cbn [heap].
    by apply insert_fresh_lookup, insert_fresh_lookup. }
  rewrite bind_bind.
  erewrite bind_ret_run; last first.
  { apply get_dict_run. cbn [heap].
    by apply insert_fresh_lookup, insert_fresh_lookup. }
  erewrite bind_ret_run by apply alloc_run.
  cbn [heap trace d_default d_items]. fold l3 h3.
  unfold set_categories. rewrite bind_bind.
  erewrite bind_ret_run; last first.
  { apply get_profile_run. cbn [heap]. apply insert_fresh_lookup.
    unfold h2. by rewrite lookup_insert_eq. }
  erewrite bind_ret_run; last first.
  { eapply set_profile_run. cbn [heap]. apply insert_fresh_lookup.
    unfold h2. by rewrite lookup_insert_eq. }
  cbn [heap trace name sample_size times _top_k_categories].
  unfold _add_helper. rewrite bind_bind.
  erewrite bind_ret_run; last first.
  { apply get_profile_run. cbn [heap].
    rewrite lookup_insert_ne by done.
    by apply insert_fresh_lookup, insert_fresh_lookup, insert_fresh_lookup. }
  rewrite bind_bind.
  erewrite bind_ret_run; last first.
  { apply get_profile_run. cbn [heap].
    rewrite lookup_insert_ne by done.
    by apply insert_fresh_lookup, insert_fresh_lookup, insert_fresh_lookup. }
  rewrite bind_bind.
  erewrite bind_ret_run; last first.
  { apply get_profile_run. cbn [heap]. by rewrite lookup_insert_eq. }
  erewrite bind_ret_run; last first.
  { eapply set_profile_run. cbn [heap]. by rewrite lookup_insert_eq. }
  done.
Qed.

(** X12.  [__add__] builds its result with [CategoricalColumn(None)], so the
    merged profile has no [top_k_categories], whatever the operands had:
    when it is categorical its report lists every category of the merged
    counts. *)
Theorem merge_forgets_top_k s self other pa pb a b :
  profile_at s self pa a → profile_at s other pb b →
  ∃ l s' pm,
    __add__ self other s = (Ret l, s') ∧
    profile_at s' l pm (add_counts a b) ∧
    _top_k_categories pm = None ∧
    ∀ r, profile_property l s' = (Ret r, s') → categorical r = true →
      ∃ items,
        statistics r !! "categorical_count"%string = Some (PDict items) ∧
        items ≡ₚ map_to_list (add_counts a b).
Proof.
  intros Hpa Hpb.
  destruct (__add___run _ _ _ _ _ _ _ Hpa Hpb)
    as (l & s' & pm & Hadd & _ & _ & _ & _ & Hpm & _).
  destruct Hpa as [Hself (da & Hda)]. destruct Hpb as [Hother (db & Hdb)].
  destruct s as [h t]. cbn [heap] in *.
  pose proof (__add___explicit h t _ _ _ _ _ _ _ _ Hself Hda Hother Hdb)
    as Hexp.
  cbv zeta in Hexp. rewrite Hexp in Hadd. injection Hadd as <- <-.
  assert (_top_k_categories pm = None) as Htop.
  { destruct Hpm as [Hl _]. cbn [heap] in Hl.
    rewrite lookup_insert_eq in Hl. by injection Hl as <-. }
  eexists _, _, pm. split; [done|]. split; [done|]. split; [done|].
  intros r Hr Hcat.
  destruct (profile_property_run _ _ _ _ Hpm) as (bm & _ & Hrun).
  rewrite Hrun in Hr. injection Hr as <-. cbn [categorical] in Hcat.
  subst bm. cbn [statistics]. cbv zeta.
  eexists. rewrite lookup_insert_eq. split; [done|].
  rewrite Htop. cbn [slice_to].
  apply sorted_items_desc_spec.
Qed.


(** The state [update] ends in on a non-empty series, written out. *)
Lemma update_explicit h t (elapsed : Qc) self p da m (vs : list K) :
  h !! self = Some (OProfile p) →
  h !! _categories p = Some (ODict (DictObj da m)) →
  vs ≠ [] →
  let l1 := fresh (dom h) in
  let h1 := <[l1 := ODict (DictObj false (value_counts vs))]> h in
  let l2 := fresh (dom h1) in
  let h2 := <[l2 := ODict (DictObj da (add_counts m (value_counts vs)))]> h1 in
  let p1 := Profile (name p) (sample_size p) (times p) l2
              (_top_k_categories p) in
  let p2 := Profile (name p) (sample_size p)
              (<["categories"%string :=
                   (default 0%Qc (times p !! "categories"%string)
                    + elapsed)%Qc]> (times p))
              l2 (_top_k_categories p) in
  let p3 := Profile (name p) (sample_size p + Z.of_nat (length vs))
              (times p2) l2 (_top_k_categories p) in
  update elapsed self vs (State h t) =
    (Ret self,
     State (<[self := OProfile p3]>
              (<[self := OProfile p2]> (<[self := OProfile p1]> h2))) t).
Proof.
  intros Hself Hd Hvs l1 h1 l2 h2 p1 p2 p3.
  assert (h1 !! self = Some (OProfile p)) as Hself1
    by (by apply insert_fresh_lookup).
  assert (h2 !! self = Some (OProfile p)) as Hself2
    by (by apply insert_fresh_lookup).
  unfold update. rewrite decide_False by (by destruct vs).
  unfold _update_categories.
  mrun by (apply alloc_run).
  cbn [heap trace]. fold l1 h1.
  mrun by (by apply get_profile_run).
  unfold add_nested_dictionaries.
  mrun by (apply get_dict_run; cbn [heap]; by apply insert_fresh_lookup).
  mrun by (apply get_dict_run; cbn [heap]; unfold h1;
           by rewrite lookup_insert_eq).
  mrun by (apply alloc_run).
  cbn [heap trace d_default d_items]. fold l2 h2.
  unfold set_categories.
  mrun by (by apply get_profile_run).
  mrun by (by eapply set_profile_run).
  cbn [heap trace]. fold p1.
  unfold _timeit.
  mrun by (apply get_profile_run; cbn [heap]; by rewrite lookup_insert_eq).
  mrun by (eapply set_profile_run; cbn [heap]; by rewrite lookup_insert_eq).
  cbn [heap trace name sample_size times _categories _top_k_categories p1].
  fold p2.
  unfold _update_helper, _update_column_base_properties.
  mrun by (apply get_profile_run; cbn [heap]; by rewrite lookup_insert_eq).
  mrun by (eapply set_profile_run; cbn [heap]; by rewrite lookup_insert_eq).
  done.
Qed.

(** X14.  [update] on an empty series returns the profile and changes
    nothing.  On a non-empty series it returns the profile, whose counts
    are now the old counts plus, for every value, the number of times it
    occurs in the series; the sample size grows by the length of the
    series; name and [top_k_categories] stay; no other object of the heap
    changes. *)
Theorem update_effect s (elapsed : Qc) self p m (vs : list K) :
  profile_at s self p m →
  (vs = [] → update elapsed self vs s = (Ret self, s)) ∧
  (vs ≠ [] →
     ∃ s' p' m',
       update elapsed self vs s = (Ret self, s') ∧
       profile_at s' self p' m' ∧
       (∀ v, count m' v
             = count m v + Z.of_nat (length (filter (λ x, x = v) vs))) ∧
       sample_size p' = sample_size p + Z.of_nat (length vs) ∧
       name p' = name p ∧
       _top_k_categories p' = _top_k_categories p ∧
       (∀ l', l' ≠ self → is_Some (heap s !! l') →
              heap s' !! l' = heap s !! l') ∧
       trace s' = trace s).
Proof.
  intros [Hself (da & Hd)]. split; [by intros ->|].
  intros Hvs. destruct s as [h t]. cbn [heap] in *.
  pose proof (update_explicit h t elapsed _ _ _ _ _ Hself Hd Hvs) as Hexp.
  cbv zeta in Hexp.
  eexists _, _, (add_counts m (value_counts vs)).
  split; [exact Hexp|]. split.
  { split; cbn [heap].
    - by rewrite lookup_insert_eq.
    - exists da. cbn [_categories].
      assert (fresh (dom (<[fresh (dom h) :=
                ODict (DictObj false (value_counts vs))]> h)) ≠ self)
        as Hne.
      { intros Heq.
        pose proof (fresh_lookup_None
          (<[fresh (dom h) := ODict (DictObj false (value_counts vs))]> h))
          as Hf.
        rewrite Heq in Hf.
        by rewrite (insert_fresh_lookup h _ _ _ Hself) in Hf. }
      rewrite !lookup_insert_ne by done. by rewrite lookup_insert_eq. }
  split.
  { intros v. rewrite count_add_counts.
    by rewrite (proj2 (proj2 (value_counts_spec vs))). }
  do 3 (split; [done|]). split; [|done].
  intros l' Hne [o Hl']. cbn [heap].
  rewrite !lookup_insert_ne by done. rewrite Hl'.
  by apply insert_fresh_lookup, insert_fresh_lookup.
Qed.

(** X15.  [update] keeps a profile consistent: if every count is positive
    and the counts add up to the sample size, the same holds afterwards;
    no key is lost and no count decreases. *)
Theorem update_keeps_counts_consistent s (elapsed : Qc) self p m
    (vs : list K) :
  profile_at s self p m →
  map_Forall (λ _ c, 0 < c) m → row_sum m = sample_size p →
  ∃ s' p' m',
    update elapsed self vs s = (Ret self, s') ∧
    profile_at s' self p' m' ∧
    map_Forall (λ _ c, 0 < c) m' ∧
    row_sum m' = sample_size p' ∧
    dom m ⊆ dom m' ∧
    ∀ v, count m v ≤ count m' v.
Proof.
  intros Hp Hpos Hsum.
  destruct vs as [|v vs].
  { exists s, p, m. do 5 (split; [done|]). intros x. lia. }
  destruct Hp as [Hself (da & Hd)].
  destruct s as [h t]. cbn [heap] in *.
  pose proof (update_explicit h t elapsed _ _ _ _ (v :: vs) Hself Hd)
    as Hexp.
  cbv zeta in Hexp. specialize (Hexp ltac:(done)).
  destruct (value_counts_spec (v :: vs)) as (Hlen & Hvpos & Hocc).
  eexists _, _, (add_counts m (value_counts (v :: vs))).
  split; [exact Hexp|]. split.
  { split; cbn [heap].
    - by rewrite lookup_insert_eq.
    - exists da. cbn [_categories].
      assert (fresh (dom (<[fresh (dom h) :=
                ODict (DictObj false (value_counts (v :: vs)))]> h)) ≠ self)
        as Hne.
      { intros Heq.
        pose proof (fresh_lookup_None
          (<[fresh (dom h) :=
               ODict (DictObj false (value_counts (v :: vs)))]> h)) as Hf.
        rewrite Heq in Hf.
        by rewrite (insert_fresh_lookup h _ _ _ Hself) in Hf. }
      rewrite !lookup_insert_ne by done. by rewrite lookup_insert_eq. }
  split; [by apply add_counts_positive|].
  split; [cbn [sample_size]; rewrite row_sum_add_counts; lia|].
  split; [rewrite dom_add_counts; set_solver|].
  intros x. rewrite count_add_counts, Hocc. lia.
Qed.

(** X16.  [__add__] keeps profiles consistent: if in both operands every
    count is positive and the counts add up to the sample size, the same
    holds in the merged profile; it has every key of either operand and no
    count smaller than in an operand. *)
Theorem merge_keeps_counts_consistent s self other pa pb a b :
  profile_at s self pa a → profile_at s other pb b →
  map_Forall (λ _ c, 0 < c) a → row_sum a = sample_size pa →
  map_Forall (λ _ c, 0 < c) b → row_sum b = sample_size pb →
  ∃ l s' pm,
    __add__ self other s = (Ret l, s') ∧
    profile_at s' l pm (add_counts a b) ∧
    map_Forall (λ _ c, 0 < c) (add_counts a b) ∧
    row_sum (add_counts a b) = sample_size pm ∧
    dom (add_counts a b) = dom a ∪ dom b ∧
    ∀ v, count a v ≤ count (add_counts a b) v
         ∧ count b v ≤ count (add_counts a b) v.
Proof.
  intros Hpa Hpb Hposa Hsuma Hposb Hsumb.
  destruct (__add___run _ _ _ _ _ _ _ Hpa Hpb)
    as (l & s' & pm & Hadd & _ & _ & _ & _ & Hpm & Hss).
  exists l, s', pm. split; [done|]. split; [done|].
  split; [by apply add_counts_positive|].
  split; [rewrite row_sum_add_counts; lia|].
  split; [apply dom_add_counts|].
  intros v. rewrite count_add_counts.
  assert (∀ m0, map_Forall (λ _ c, 0 < c) m0 → 0 ≤ count m0 v) as Hnn.
  { intros m0 Hm0. unfold count. destruct (m0 !! v) as [c|] eqn:Hc; [|done].
    pose proof (Hm0 _ _ Hc). simpl in *. lia. }
  pose proof (Hnn a Hposa). pose proof (Hnn b Hposb). lia.
Qed.

End Lifecycle.

(** * Further properties of [diff] *)

Section MoreDiff.
Context {K : Type} `{Countable K}.
Variable scipy_stats_chi2_cdf : option (Z → Qc → Qc).
Context {V : Type}.
Variable find_diff_of_strings_and_bools : bool → bool → V.
Variable find_diff_of_numbers : option Qc → option Qc → V.
Variable find_diff_of_lists_and_sets : list K → list K → V.
Variable find_diff_of_dicts : list (K * Z) → list (K * Z) → V.
Variable base_differences : gmap string (rvalue V).
Implicit Types (s : state K) (self other : loc) (p : profile)
  (m a b : gmap K Z).

(** X17.  Whenever [diff] returns, its report has the key "categorical"
    with the difference of the two classifications, and under
    "statistics" the keys "unique_count" and "unique_ratio" with the
    differences of the two numbers of keys and of the two unique ratios,
    whether or not the profiles are categorical. *)
Theorem diff_common_fields s self other pa pb a b r s' :
  profile_at s self pa a → profile_at s other pb b →
  diff scipy_stats_chi2_cdf find_diff_of_strings_and_bools
    find_diff_of_numbers find_diff_of_lists_and_sets find_diff_of_dicts
    base_differences self other s = (Ret r, s') →
  ∃ bA bB urA urB st,
    is_match self s = (Ret bA, s) ∧
    is_match other s = (Ret bB, s) ∧
    unique_ratio self s = (Ret urA, s) ∧
    unique_ratio other s = (Ret urB, s) ∧
    r !! "categorical"%string
      = Some (RVal (find_diff_of_strings_and_bools bA bB)) ∧
    r !! "statistics"%string = Some (RStatistics st) ∧
    st !! "unique_count"%string
      = Some (find_diff_of_numbers (Some (Qc_of_Z (unique_count a)))
                                   (Some (Qc_of_Z (unique_count b)))) ∧
    st !! "unique_ratio"%string
      = Some (find_diff_of_numbers (Some urA) (Some urB)).
Proof.
  intros Hpa Hpb Hdiff.
  pose proof (is_match_run _ _ _ _ Hpa) as HmA.
  pose proof (is_match_run _ _ _ _ Hpb) as HmB.
  pose proof (categories_run _ _ _ _ Hpa) as HcA.
  pose proof (categories_run _ _ _ _ Hpb) as HcB.
  pose proof (unique_ratio_run _ _ _ _ Hpa) as HuA.
  pose proof (unique_ratio_run _ _ _ _ Hpb) as HuB.
  set (bA := bool_decide _) in HmA. set (bB := bool_decide _) in HmB.
  set (urA := if decide (sample_size pa = 0) then _ else _) in HuA.
  set (urB := if decide (sample_size pb = 0) then _ else _) in HuB.
  exists bA, bB, urA, urB. revert Hdiff.
  unfold diff.
  rewrite (bind_ret_run _ _ _ _ _ HmA), (bind_ret_run _ _ _ _ _ HmB).
  rewrite (bind_ret_run _ _ _ _ _ HcA), (bind_ret_run _ _ _ _ _ HcB).
  rewrite (bind_ret_run _ _ _ _ _ HuA), (bind_ret_run _ _ _ _ _ HuB).
  rewrite (bind_ret_run _ _ _ _ _ HmA).
  unfold len_num. rewrite !length_keys.
  set (st0 := list_to_map _ : gmap string V).
  assert (st0 !! "unique_count"%string
          = Some (find_diff_of_numbers (Some (Qc_of_Z (unique_count a)))
                                       (Some (Qc_of_Z (unique_count b)))))
    as Hcount by done.
  assert (st0 !! "unique_ratio"%string
          = Some (find_diff_of_numbers (Some urA) (Some urB)))
    as Hratio by done.
  assert (∀ (k : bool → M (state K) (gmap string (rvalue V))),
    bind (if bA then is_match other else ret false) k s
    = k (bA && bB) s) as Hboth.
  { intros k. destruct bA; [|done].
    by rewrite (bind_ret_run _ _ _ _ _ HmB). }
  rewrite Hboth. clear Hboth.
  destruct (bA && bB); last first.
  { intros [= <- <-]. exists st0. do 4 (split; [done|]).
    split; [by rewrite lookup_insert_ne, lookup_insert_eq|].
    split; [by rewrite lookup_insert_eq|]. done. }
  pose proof (profile_at_self _ _ _ _ Hpa) as HsA.
  pose proof (profile_at_self _ _ _ _ Hpb) as HsB.
  msteps.
  pose proof (hp_chi_squared_test scipy_stats_chi2_cdf
                (_categories pa) (_categories pb) s) as Hheap.
  destruct (_perform_chi_squared_test _ _ _ s) as [[chi2|e] s2] eqn:Hchi2;
    simpl in Hheap; last first.
  { by rewrite (bind_raise_run _ _ _ _ _ Hchi2). }
  rewrite (bind_ret_run _ _ _ _ _ Hchi2).
  assert (profile_at s2 self pa a) as Hpa2 by (by eapply profile_at_heap).
  assert (profile_at s2 other pb b) as Hpb2 by (by eapply profile_at_heap).
  rewrite (bind_ret_run _ _ _ _ _ (categories_run _ _ _ _ Hpa2)).
  rewrite (bind_ret_run _ _ _ _ _ (categories_run _ _ _ _ Hpb2)).
  erewrite bind_ret_run; last first.
  { apply set_statistic_run.
    rewrite lookup_insert_ne by done. by rewrite lookup_insert_eq. }
  rewrite (bind_ret_run _ _ _ _ _ (gini_impurity_run _ _ _ _ Hpa2)).
  rewrite (bind_ret_run _ _ _ _ _ (gini_impurity_run _ _ _ _ Hpb2)).
  erewrite bind_ret_run; last first.
  { apply set_statistic_run. by rewrite lookup_insert_eq. }
  rewrite (bind_ret_run _ _ _ _ _ (unalikeability_run _ _ _ _ Hpa2)).
  rewrite (bind_ret_run _ _ _ _ _ (unalikeability_run _ _ _ _ Hpb2)).
  erewrite bind_ret_run; last first.
  { apply set_statistic_run. by rewrite lookup_insert_eq. }
  rewrite (bind_ret_run _ _ _ _ _
             (get_profile_run s2 _ _ (profile_at_self _ _ _ _ Hpa2))).
  rewrite (bind_ret_run _ _ _ _ _ (dict_items_profile_run _ _ _ _ Hpa2)).
  rewrite (bind_ret_run _ _ _ _ _
             (get_profile_run s2 _ _ (profile_at_self _ _ _ _ Hpb2))).
  rewrite (bind_ret_run _ _ _ _ _ (dict_items_profile_run _ _ _ _ Hpb2)).
  erewrite bind_ret_run; last first.
  { apply set_statistic_run. by rewrite lookup_insert_eq. }
  intros [= <- <-]. eexists. do 4 (split; [done|]).
  split.
  { rewrite !lookup_insert_ne by done. by rewrite lookup_insert_eq. }
  split; [by rewrite lookup_insert_eq|].
  by rewrite !lookup_insert_ne by done.
Qed.

(** X18.  The diff of a categorical profile with itself, all counts
    positive and at least one category: the report carries the result of
    the chi-squared test with statistic 0 and as many degrees of freedom
    as there are categories, minus one; the heap is unchanged. *)
Theorem diff_with_itself s self p m :
  profile_at s self p m →
  is_match self s = (Ret true, s) →
  map_Forall (λ _ c, 0 < c) m → m ≠ ∅ →
  ∃ r s',
    diff scipy_stats_chi2_cdf find_diff_of_strings_and_bools
      find_diff_of_numbers find_diff_of_lists_and_sets find_diff_of_dicts
      base_differences self self s = (Ret r, s') ∧
    heap s' = heap s ∧
    r !! "chi2-test"%string =
      Some (RChi2 (Chi2Results (Some (Fin 0%Qc))
                     (Some (unique_count m - 1))
                     ((λ cdf, (1 - cdf (unique_count m - 1)%Z 0)%Qc)
                      <$> scipy_stats_chi2_cdf))).
Proof.
  intros Hp Hmatch Hpos Hne.
  destruct (diff_run scipy_stats_chi2_cdf find_diff_of_strings_and_bools
              find_diff_of_numbers find_diff_of_lists_and_sets
              find_diff_of_dicts base_differences _ _ _ _ _ _ _ Hp Hp)
    as (bA & bB & HmA & HmB & Hcase).
  rewrite Hmatch in HmA, HmB. injection HmA as <-. injection HmB as <-.
  cbn [andb] in Hcase.
  destruct (profile_at_dict _ _ _ _ Hp) as (d & Hd & Hm).
  destruct (chi2_test_run scipy_stats_chi2_cdf s _ _ d d Hd Hd)
    as (_ & _ & Hrun).
  rewrite Hm in Hrun. cbv zeta in Hrun.
  pose proof (row_sum_pos _ Hpos Hne) as Hrow.
  assert (Z.of_nat (length (combined_categories m m)) = unique_count m)
    as Hk.
  { unfold combined_categories, unique_count.
    rewrite (idemp_L (∪)). f_equal.
    change (length (elements (dom m))) with (size (dom m)).
    apply size_dom. }
  rewrite Hk in Hrun.
  assert (0 < unique_count m) as Hu.
  { unfold unique_count. destruct (decide (size m = 0%nat)) as [Hz|]; [|lia].
    by apply map_size_empty_iff in Hz. }
  rewrite (chi2_sum_identical _ Hpos) in Hrun by lia.
  rewrite Hrun in Hcase; [|lia|lia|lia| |lia].
  - destruct Hcase as (r & st & Hdiff & _ & Hr & _).
    eexists _, _. split; [exact Hdiff|]. split; [done|]. exact Hr.
  - intros cat Hin. unfold combined_categories in Hin.
    rewrite (idemp_L (∪)) in Hin.
    apply elem_of_elements, elem_of_dom in Hin as [c Hc].
    pose proof (Hpos _ _ Hc) as Hcp. simpl in Hcp.
    unfold col_sum, count. rewrite Hc. simpl. lia.
Qed.

End MoreDiff.

(** * The further properties at the example stores *)

Lemma xy_counts_positive : map_Forall (λ _ c, 0 < c) xy_counts.
Proof.
  apply map_Forall_insert_2; [lia|]. apply map_Forall_singleton. lia.
Defined.



Lemma abc_counts_positive : map_Forall (λ _ c, 0 < c) abc_counts.
Proof.
  apply map_Forall_insert_2; [lia|].
  apply map_Forall_insert_2; [lia|]. apply map_Forall_singleton. lia.
Defined.

Lemma profile_at_t : profile_at second_state 6 profile_t abc_counts.
Proof. split; [reflexivity|]. exists true. reflexivity. Defined.

(** Eleven keys over 55 rows: 5 * 11 <= 55. *)
Lemma is_match_integer_test_witness :
  is_match 7 example_state =
    (Ret (bool_decide (unique_count wide_counts ≤ 10
                       ∨ 5 * unique_count wide_counts ≤ 55)), example_state).
Proof.
  apply (is_match_integer_test example_state 7 profile_w wide_counts
           profile_at_w).
  vm_compute. discriminate.
Defined.




Lemma xy_plain_nonneg : counts_nonneg xy_plain.
Proof.
  apply map_Forall_insert_2; [lia|]. apply map_Forall_singleton. lia.
Defined.

Lemma z_plain_nonneg : counts_nonneg z_plain.
Proof. apply map_Forall_singleton. lia. Defined.


Lemma chi_squared_statistic_nonneg_witness :
  ∃ r s' x,
    _perform_chi_squared_test None 1 2 second_state = (Ret r, s') ∧
    res_chi2_statistic r = Some (Fin x) ∧ (0 ≤ x)%Qc.
Proof.
  apply (chi_squared_statistic_nonneg None second_state 1 2
           (DictObj false xy_plain) (DictObj false z_plain)
           eq_refl eq_refl xy_plain_nonneg z_plain_nonneg).
  - vm_compute. discriminate.
  - vm_compute. discriminate.
  - intros cat Hin.
    assert (cat = "x" ∨ cat = "y" ∨ cat = "z")%string as Hcat.
    { unfold combined_categories in Hin. apply elem_of_elements in Hin.
      cbn [d_items] in Hin. unfold xy_plain, z_plain in Hin.
      rewrite dom_insert_L, !dom_singleton_L in Hin.
      rewrite !elem_of_union, !elem_of_singleton in Hin. tauto. }
    destruct Hcat as [->|[->| ->]]; vm_compute; discriminate.
Defined.


(** Two empty dicts: the test returns without a p-value and has warned
    once. *)
Lemma chi_squared_warns_iff_no_p_value_witness :
  ∃ w,
    trace (State example_heap
             [Enter_chi_squared_test 10 10;
              Warn "RuntimeWarning" insufficient_categories_msg])
      = trace example_state ++ Enter_chi_squared_test 10 10 :: w ∧
    (res_p_value (Chi2Results None None None) = None →
       ∃ msg, w = [Warn "RuntimeWarning" msg]) ∧
    (is_Some (res_p_value (Chi2Results None None None)) → w = []).
Proof.
  apply (chi_squared_warns_iff_no_p_value None example_state 10 10
           (DictObj true ∅) (DictObj true ∅)
           (Chi2Results None None None) _ eq_refl eq_refl).
  vm_compute. reflexivity.
Defined.

(** {x: 1, y: -2} against {x: 2, y: -1}: row sums -1 and 1, column sums 3
    and -3, grand total 0. *)
Lemma chi_squared_cancelling_rows_witness :
  ∃ s',
    _perform_chi_squared_test None 3 4 second_state
      = (Raise ZeroDivisionError, s') ∧
    heap s' = heap second_state.
Proof.
  apply (chi_squared_cancelling_rows None second_state 3 4
           (DictObj true signed_1) (DictObj true signed_2)
           eq_refl eq_refl).
  - vm_compute. discriminate.
  - vm_compute. discriminate.
  - intros cat Hin.
    assert (cat = "x" ∨ cat = "y")%string as Hcat.
    { unfold combined_categories in Hin. apply elem_of_elements in Hin.
      cbn [d_items] in Hin. unfold signed_1, signed_2 in Hin.
      rewrite !dom_insert_L, !dom_singleton_L in Hin.
      rewrite !elem_of_union, !elem_of_singleton in Hin. tauto. }
    destruct Hcat as [->| ->]; vm_compute; discriminate.
  - vm_compute. reflexivity.
Defined.

Lemma profile_report_keys_witness :
  ∃ b r,
    is_match 2 example_state = (Ret b, example_state) ∧
    profile_property 2 example_state = (Ret r, example_state) ∧
    categorical r = b ∧
    statistics r !! "unique_count"%string
      = Some (PInt (unique_count xy_counts)) ∧
    is_Some (statistics r !! "unique_ratio"%string) ∧
    Forall (λ key, is_Some (statistics r !! key) ↔ b = true)
      categorical_only_keys ∧
    report_times r = times profile_a.
Proof.
  exact (profile_report_keys example_state 2 profile_a xy_counts
           profile_at_a).
Defined.

(** Three categories, [top_k_categories = 2]: two items are listed. *)
Lemma profile_report_top_k_witness :
  ∃ r l,
    profile_property 6 second_state = (Ret r, second_state) ∧
    statistics r !! "categorical_count"%string = Some (PDict l) ∧
    length l = 2%nat.
Proof.
  destruct (profile_report_top_k second_state 6 profile_t abc_counts
              profile_at_t)
    as (r & l & Hr & Hl & _ & _ & _ & _ & Hlen & _).
  - vm_compute. reflexivity.
  - exists r, l. split; [exact Hr|]. split; [exact Hl|].
    rewrite (Hlen 2 eq_refl); [|lia]. vm_compute. reflexivity.
Defined.

Lemma merge_forgets_top_k_witness :
  ∃ l s' pm,
    __add__ 6 6 second_state = (Ret l, s') ∧
    profile_at s' l pm (add_counts abc_counts abc_counts) ∧
    _top_k_categories pm = None.
Proof.
  destruct (merge_forgets_top_k second_state 6 6 profile_t profile_t
              abc_counts abc_counts profile_at_t profile_at_t)
    as (l & s' & pm & Hadd & Hpm & Htop & _).
  by exists l, s', pm.
Defined.


Lemma update_effect_witness :
  ∃ s' p' m',
    update 0%Qc 2 ["x"; "z"; "x"]%string example_state = (Ret 2%positive, s') ∧
    profile_at s' 2 p' m' ∧
    count m' "x"%string = count xy_counts "x"%string + 2 ∧
    sample_size p' = 20 + 3.
Proof.
  destruct (proj2 (update_effect example_state 0%Qc 2 profile_a xy_counts
                     ["x"; "z"; "x"]%string profile_at_a))
    as (s' & p' & m' & Hup & Hp' & Hcount & Hss & _).
  - discriminate.
  - exists s', p', m'. split; [exact Hup|]. split; [exact Hp'|].
    split; [|exact Hss]. rewrite Hcount. reflexivity.
Defined.

Lemma update_keeps_counts_consistent_witness :
  ∃ s' p' m',
    update 0%Qc 2 ["x"; "z"; "x"]%string example_state = (Ret 2%positive, s') ∧
    profile_at s' 2 p' m' ∧
    map_Forall (λ _ c, 0 < c) m' ∧
    row_sum m' = sample_size p' ∧
    dom xy_counts ⊆ dom m' ∧
    ∀ v, count xy_counts v ≤ count m' v.
Proof.
  apply (update_keeps_counts_consistent example_state 0%Qc 2 profile_a
           xy_counts _ profile_at_a xy_counts_positive).
  vm_compute. reflexivity.
Defined.

Lemma categories_are_the_keys_witness :
  ∃ cats,
    categories 2 example_state = (Ret cats, example_state) ∧
    NoDup cats ∧
    Z.of_nat (length cats) = unique_count xy_counts ∧
    ∀ cat, cat ∈ cats ↔ is_Some (xy_counts !! cat).
Proof.
  exact (categories_are_the_keys example_state 2 profile_a xy_counts
           profile_at_a).
Defined.

Lemma merge_keeps_counts_consistent_witness :
  ∃ l s' pm,
    __add__ 2 4 example_state = (Ret l, s') ∧
    profile_at s' l pm (add_counts xy_counts xy_counts) ∧
    row_sum (add_counts xy_counts xy_counts) = sample_size pm.
Proof.
  destruct (merge_keeps_counts_consistent example_state 2 4 profile_a
              profile_b xy_counts xy_counts profile_at_a profile_at_b
              xy_counts_positive)
    as (l & s' & pm & Hadd & Hpm & _ & Hsum & _).
  - vm_compute. reflexivity.
  - exact xy_counts_positive.
  - vm_compute. reflexivity.
  - by exists l, s', pm.
Defined.

(** The stand-in helpers make every difference [tt]. *)
Lemma diff_common_fields_witness :
  ∃ r,
    diff None no_diff no_diff no_diff no_diff ∅ 8 2 example_state
      = (Ret r, example_state) ∧
    r !! "categorical"%string = Some (RVal tt) ∧
    ∃ st, r !! "statistics"%string = Some (RStatistics st) ∧
          st !! "unique_count"%string = Some tt ∧
          st !! "unique_ratio"%string = Some tt.
Proof.
  destruct (diff_run None no_diff no_diff no_diff no_diff ∅ example_state
              8 2 profile_w0 profile_a wide_counts xy_counts
              profile_at_w0 profile_at_a)
    as (bA & bB & HmA & _ & Hcase).
  assert (is_match 8 example_state = (Ret false, example_state)) as HA
    by (vm_compute; reflexivity).
  rewrite HA in HmA. injection HmA as <-. cbn [andb] in Hcase.
  destruct Hcase as (r & st0 & Hdiff & _).
  destruct (diff_common_fields None no_diff no_diff no_diff no_diff ∅
              example_state 8 2 profile_w0 profile_a wide_counts xy_counts
              r example_state profile_at_w0 profile_at_a Hdiff)
    as (b1 & b2 & u1 & u2 & st & _ & _ & _ & _ & Hcat & Hst & Hc & Hu).
  exists r. split; [exact Hdiff|]. split; [exact Hcat|].
  exists st. split; [exact Hst|]. split; [exact Hc|exact Hu].
Defined.

Lemma diff_with_itself_witness :
  ∃ r s',
    diff None no_diff no_diff no_diff no_diff ∅ 2 2 example_state
      = (Ret r, s') ∧
    heap s' = heap example_state ∧
    r !! "chi2-test"%string =
      Some (RChi2 (Chi2Results (Some (Fin 0%Qc))
                     (Some (unique_count xy_counts - 1)) None)).
Proof.
  apply (diff_with_itself None no_diff no_diff no_diff no_diff ∅
           example_state 2 profile_a xy_counts profile_at_a).
  - vm_compute. reflexivity.
  - exact xy_counts_positive.
  - intros Heq. apply (f_equal (λ m : gmap string Z, m !! "x"%string)) in Heq.
    vm_compute in Heq. discriminate.
Defined.
